(** * BookKeepCA: the ledger of [app.py]

    A shallow embedding of the session store ([DataManager]), of the balance
    and KPI computation of [dashboard_view], of the transaction and account
    forms, and of the ledger search box, followed by the properties of the
    specification that concern them.

    Modelling conventions.
    - Money is a Python [float], that is an IEEE-754 binary64 number: it is
      embedded as Rocq's primitive [float], whose [+], [-], [abs] and
      comparisons are the binary64 ones.
    - A Python [dict] keeps its keys in insertion order and the KPI sums
      depend on that order, so a dict is an association list with unique
      keys, updated in place.
    - [uuid.uuid4()] is a supply of fresh identifiers: a counter kept next
      to the store.  [datetime.datetime.now()] is an input of the operation
      that reads it.
    - A raised exception is a value of [result]. *)

From Stdlib Require Import List String Ascii Bool Arith Lia ZArith QArith.
From Stdlib Require Import Permutation.
From Stdlib Require Import Floats.PrimFloat Floats.SpecFloat Floats.FloatOps.
Import ListNotations.

Set Warnings "-inexact-float".

Close Scope Q_scope.
Local Open Scope nat_scope.
Local Open Scope string_scope.
Local Open Scope list_scope.

(** ** Exceptions *)

Inductive exn : Type :=
| KeyError.

Inductive result (A : Type) : Type :=
| Ok (a : A)
| Raise (e : exn).

Arguments Ok {A} a.
Arguments Raise {A} e.

Definition rbind {A B : Type} (r : result A) (k : A -> result B) : result B :=
  match r with
  | Ok a => k a
  | Raise e => Raise e
  end.

Notation "'try' x <- r 'in' k" := (rbind r (fun x => k))
  (at level 10, x name, r at level 100, k at level 200).

(** ** Insertion-ordered dictionaries *)

Class EqKey (K : Type) : Type := {
  key_eqb : K -> K -> bool;
  key_eqb_spec : forall a b : K, reflect (a = b) (key_eqb a b)
}.

#[export] Instance nat_EqKey : EqKey nat :=
  {| key_eqb := Nat.eqb; key_eqb_spec := Nat.eqb_spec |}.

#[export] Instance string_EqKey : EqKey string :=
  {| key_eqb := String.eqb; key_eqb_spec := String.eqb_spec |}.

Section Dict.
Context {K V : Type} `{EqKey K}.

Definition dict : Type := list (K * V).

(** [d[k]], [None] standing for the missing key. *)
Fixpoint dict_get (d : dict) (k : K) : option V :=
  match d with
  | [] => None
  | (k', v) :: d' => if key_eqb k' k then Some v else dict_get d' k
  end.

(** [d[k] = v]: a present key keeps its place, a new one goes last. *)
Fixpoint dict_set (d : dict) (k : K) (v : V) : dict :=
  match d with
  | [] => [(k, v)]
  | (k', v') :: d' =>
      if key_eqb k' k then (k', v) :: d' else (k', v') :: dict_set d' k v
  end.

Definition dict_keys (d : dict) : list K := map fst d.

Definition dict_items (d : dict) : list (K * V) := d.

(** [{key: value for ... in l}] over the pairs produced by the
    comprehension. *)
Definition dict_of (l : list (K * V)) : dict :=
  fold_left (fun d kv => dict_set d (fst kv) (snd kv)) l [].

(** [d[k]] as an expression: a missing key raises. *)
Definition dict_item (d : dict) (k : K) : result V :=
  match dict_get d k with
  | Some v => Ok v
  | None => Raise KeyError
  end.

End Dict.

Arguments dict : clear implicits.

(** ** Constants *)

Definition PROVINCES : list string :=
  [ "Alberta"; "British Columbia"; "Manitoba"; "New Brunswick";
    "Newfoundland and Labrador"; "Northwest Territories"; "Nova Scotia";
    "Nunavut"; "Ontario"; "Prince Edward Island"; "Quebec"; "Saskatchewan";
    "Yukon" ].

Definition CATEGORIES : list string :=
  [ "Sales"; "Services"; "Advertising"; "Meals & Entertainment";
    "Office Supplies"; "Rent"; "Salaries"; "Software"; "Travel";
    "Utilities"; "Inventory"; "Bank Fees"; "GST/HST Paid";
    "GST/HST Collected"; "Owner Draw"; "Owner Investment" ].

(** ** Records of the session store *)

Definition uuid : Type := nat.

Record account : Type := {
  a_id : uuid;
  a_business_id : uuid;
  a_name : string;
  a_type : string;
  a_initial_balance : float;
  a_is_active : bool
}.

(** The dictionary built by the onboarding form. *)
Record bus_data : Type := {
  bus_name : string;
  bus_type : string;
  bus_bn : string;
  bus_city : string;
  bus_province : string
}.

(** [{**data, 'owner_email': user_email}] *)
Record business : Type := {
  b_data : bus_data;
  b_owner_email : string
}.

(** The dictionary built by the transaction form; the two transfer keys are
    present for a transfer only. *)
Record tx_data : Type := {
  d_type : string;
  d_amount : float;
  d_description : string;
  d_category : string;
  d_account_id : uuid;
  d_from_account_id : option uuid;
  d_to_account_id : option uuid
}.

(** [{'id': ..., 'business_id': ..., 'date': ..., **data}] *)
Record transaction : Type := {
  t_id : uuid;
  t_business_id : uuid;
  t_date : Z;
  t_type : string;
  t_amount : float;
  t_description : string;
  t_category : string;
  t_account_id : uuid;
  t_from_account_id : option uuid;
  t_to_account_id : option uuid
}.

Record database : Type := {
  db_users : dict string string;
  db_businesses : dict uuid business;
  db_accounts : list account;
  db_transactions : list transaction
}.

Definition empty_db : database :=
  {| db_users := []; db_businesses := []; db_accounts := [];
     db_transactions := [] |}.

(** The store together with the identifier supply. *)
Record world : Type := {
  w_uuid : nat;
  w_db : database
}.

(** ** DataManager *)

Definition M (A : Type) : Type := world -> A * world.

Definition ret {A : Type} (a : A) : M A := fun w => (a, w).

Definition bind {A B : Type} (m : M A) (k : A -> M B) : M B :=
  fun w => let (a, w') := m w in k a w'.

Notation "x <- m ;; k" := (bind m (fun x => k))
  (at level 61, m at next level, right associativity).
Notation "m ;;; k" := (bind m (fun _ => k))
  (at level 61, right associativity).

Definition exec {A : Type} (m : M A) (w : world) : world := snd (m w).

Definition uuid4 : M uuid :=
  fun w => (w_uuid w, {| w_uuid := S (w_uuid w); w_db := w_db w |}).

Definition get_db : M database := fun w => (w_db w, w).

Definition put_db (db : database) : M unit :=
  fun w => (tt, {| w_uuid := w_uuid w; w_db := db |}).

(** [float(x)] of a value that is a float already. *)
Definition py_float (x : float) : float := x.

Definition create_account (business_id : uuid) (name type_ : string)
    (balance : float) : M unit :=
  id <- uuid4 ;;
  let acc := {| a_id := id; a_business_id := business_id; a_name := name;
                a_type := type_; a_initial_balance := py_float balance;
                a_is_active := true |} in
  db <- get_db ;;
  put_db {| db_users := db_users db; db_businesses := db_businesses db;
            db_accounts := db_accounts db ++ [acc];
            db_transactions := db_transactions db |}.

Definition create_business (user_email : string) (data : bus_data) : M uuid :=
  bus_id <- uuid4 ;;
  db <- get_db ;;
  put_db {| db_users := db_users db;
            db_businesses :=
              dict_set (db_businesses db) bus_id
                {| b_data := data; b_owner_email := user_email |};
            db_accounts := db_accounts db;
            db_transactions := db_transactions db |} ;;;
  create_account bus_id "Main Chequing" "Bank" 0%float ;;;
  create_account bus_id "Corporate Card" "Credit Card" 0%float ;;;
  ret bus_id.

Definition get_business_by_user (db : database) (email : string)
    : option (uuid * business) :=
  find (fun kv => String.eqb (b_owner_email (snd kv)) email)
       (dict_items (db_businesses db)).

Definition get_accounts (db : database) (business_id : uuid) : list account :=
  filter (fun a => Nat.eqb (a_business_id a) business_id) (db_accounts db).

(** [add_transaction] on a dictionary [data] that holds the keys of the
    form and none of [id], [business_id] and [date], as the dictionary of
    its one caller; [add_transaction_raw] below is the general case. *)
Definition add_transaction (business_id : uuid) (now : Z) (data : tx_data)
    : M unit :=
  id <- uuid4 ;;
  let tx := {| t_id := id; t_business_id := business_id; t_date := now;
               t_type := d_type data; t_amount := d_amount data;
               t_description := d_description data;
               t_category := d_category data;
               t_account_id := d_account_id data;
               t_from_account_id := d_from_account_id data;
               t_to_account_id := d_to_account_id data |} in
  db <- get_db ;;
  put_db {| db_users := db_users db; db_businesses := db_businesses db;
            db_accounts := db_accounts db;
            db_transactions := db_transactions db ++ [tx] |}.

Definition get_transactions (db : database) (business_id : uuid)
    : list transaction :=
  filter (fun t => Nat.eqb (t_business_id t) business_id) (db_transactions db).

(** ** dashboard_view: balances and KPIs *)

(** [t['from_account_id']]: the key may be absent. *)
Definition opt_item {A : Type} (o : option A) : result A :=
  match o with
  | Some a => Ok a
  | None => Raise KeyError
  end.

(** One round of the loop over [transactions]. *)
Definition apply_transaction (acc_balances : dict uuid float)
    (t : transaction) : result (dict uuid float) :=
  let amt := py_float (t_amount t) in
  if String.eqb (t_type t) "Inflow" then
    try b <- dict_item acc_balances (t_account_id t) in
    Ok (dict_set acc_balances (t_account_id t) (b + amt)%float)
  else if String.eqb (t_type t) "Outflow" then
    try b <- dict_item acc_balances (t_account_id t) in
    Ok (dict_set acc_balances (t_account_id t) (b - amt)%float)
  else if String.eqb (t_type t) "Transfer" then
    try f <- opt_item (t_from_account_id t) in
    try b <- dict_item acc_balances f in
    let acc_balances := dict_set acc_balances f (b - amt)%float in
    try g <- opt_item (t_to_account_id t) in
    try b <- dict_item acc_balances g in
    Ok (dict_set acc_balances g (b + amt)%float)
  else Ok acc_balances.

Fixpoint balance_loop (acc_balances : dict uuid float)
    (transactions : list transaction) : result (dict uuid float) :=
  match transactions with
  | [] => Ok acc_balances
  | t :: rest =>
      try acc_balances <- apply_transaction acc_balances t in
      balance_loop acc_balances rest
  end.

Definition calc_balances (accounts : list account)
    (transactions : list transaction) : result (dict uuid float) :=
  balance_loop
    (dict_of (map (fun a => (a_id a, a_initial_balance a)) accounts))
    transactions.

(** [sum(...)]: additions from the left, starting at 0.  (The theorems
    below use only that equal summand lists give equal sums.) *)
Definition py_sum (l : list float) : float :=
  fold_left PrimFloat.add l 0%float.

(** [any(a['type'] != 'Credit Card' and a['id'] == aid for a in accounts)] *)
Definition is_asset_id (accounts : list account) (aid : uuid) : bool :=
  existsb (fun a => negb (String.eqb (a_type a) "Credit Card")
                    && Nat.eqb (a_id a) aid) accounts.

Definition calc_assets (accounts : list account)
    (acc_balances : dict uuid float) : float :=
  py_sum (map snd (filter (fun kv => is_asset_id accounts (fst kv))
                          (dict_items acc_balances))).

Fixpoint liabilities_loop (acc_balances : dict uuid float)
    (accounts : list account) (liabilities : float) : result float :=
  match accounts with
  | [] => Ok liabilities
  | acc :: rest =>
      try bal <- dict_item acc_balances (a_id acc) in
      if String.eqb (a_type acc) "Credit Card" then
        liabilities_loop acc_balances rest (liabilities + abs bal)%float
      else if (bal <? 0)%float then
        liabilities_loop acc_balances rest (liabilities + abs bal)%float
      else liabilities_loop acc_balances rest liabilities
  end.

Record kpis : Type := {
  k_balances : dict uuid float;
  k_assets : float;
  k_liabilities : float;
  k_net_position : float
}.

Definition dashboard_kpis (accounts : list account)
    (transactions : list transaction) : result kpis :=
  try acc_balances <- calc_balances accounts transactions in
  let assets := calc_assets accounts acc_balances in
  try liabilities <- liabilities_loop acc_balances accounts 0%float in
  let net_position := (assets - liabilities)%float in
  Ok {| k_balances := acc_balances; k_assets := assets;
        k_liabilities := liabilities; k_net_position := net_position |}.

(** [acc_balances.get(acc['id'], 0.0)], as the Accounts tab shows it. *)
Definition balance_of (acc_balances : dict uuid float) (acc : account)
    : float :=
  match dict_get acc_balances (a_id acc) with
  | Some b => b
  | None => 0%float
  end.

(** ** dashboard_view: the forms *)

(** What [st.selectbox(label, options)] can return: one of the options, or
    [None] when there is none to offer. *)
Definition selectbox (options : list string) (value : option string) : bool :=
  match value with
  | Some v => existsb (String.eqb v) options
  | None => match options with [] => true | _ :: _ => false end
  end.

(** What [st.number_input(label, min_value=m)] can return. *)
Definition number_input (min_value : option float) (value : float) : bool :=
  is_finite value
  && match min_value with
     | Some m => (m <=? value)%float
     | None => true
     end.

(** [n != account_name] for a name [n] and a selection that may be [None]. *)
Definition name_differs (n : string) (account_name : option string) : bool :=
  match account_name with
  | Some m => negb (String.eqb n m)
  | None => true
  end.

(** [acc_options[name]] for a selection that may be [None]. *)
Definition option_item (acc_options : dict string uuid)
    (name : option string) : result uuid :=
  match name with
  | Some n => dict_item acc_options n
  | None => Raise KeyError
  end.

(** The values of the widgets of the "Record Transaction" form. *)
Record tx_form : Type := {
  f_tx_type : string;
  f_amount : float;
  f_desc : string;
  f_category : string;
  f_account_name : option string;
  f_to_account_name : option string
}.

Definition acc_options_of (accounts : list account) : dict string uuid :=
  dict_of (map (fun a => (a_name a, a_id a)) accounts).

Definition to_account_choices (acc_options : dict string uuid)
    (account_name : option string) : list string :=
  filter (fun n => name_differs n account_name) (dict_keys acc_options).

(** The form as the script lays it out: which values it can hold. *)
Definition tx_form_offered (accounts : list account) (f : tx_form) : bool :=
  let acc_options := acc_options_of accounts in
  existsb (String.eqb (f_tx_type f)) ["Outflow"; "Inflow"; "Transfer"]
  && number_input (Some 0.01%float) (f_amount f)
  && existsb (String.eqb (f_category f)) CATEGORIES
  && selectbox (dict_keys acc_options) (f_account_name f)
  && if String.eqb (f_tx_type f) "Transfer"
     then selectbox (to_account_choices acc_options (f_account_name f))
                    (f_to_account_name f)
     else match f_to_account_name f with None => true | Some _ => false end.

(** The body of [if st.form_submit_button("Save Transaction")]. *)
Definition save_transaction (business_id : uuid) (accounts : list account)
    (f : tx_form) (now : Z) : result (M unit) :=
  let acc_options := acc_options_of accounts in
  try account_id <- option_item acc_options (f_account_name f) in
  let tx_data :=
    {| d_type := f_tx_type f; d_amount := f_amount f;
       d_description := f_desc f;
       d_category := if String.eqb (f_tx_type f) "Transfer"
                     then "Transfer" else f_category f;
       d_account_id := account_id;
       d_from_account_id := None; d_to_account_id := None |} in
  try tx_data <-
    (if String.eqb (f_tx_type f) "Transfer" then
       try from_id <- option_item acc_options (f_account_name f) in
       try to_id <- option_item acc_options (f_to_account_name f) in
       Ok {| d_type := d_type tx_data; d_amount := d_amount tx_data;
             d_description := d_description tx_data;
             d_category := d_category tx_data;
             d_account_id := d_account_id tx_data;
             d_from_account_id := Some from_id;
             d_to_account_id := Some to_id |}
     else Ok tx_data) in
  Ok (add_transaction business_id now tx_data).

(** ** main: the session and its events *)

Record session : Type := {
  logged_in : bool;
  user : option string;
  store : world
}.

Definition init_session : session :=
  {| logged_in := false; user := None;
     store := {| w_uuid := 0; w_db := empty_db |} |}.

Inductive event : Type :=
| LogIn (email : string)
| LaunchDashboard (data : bus_data)
| SaveTransaction (f : tx_form) (now : Z)
| CreateAccount (aname atype : string) (abal : float)
| LogOut.

Definition with_store (s : session) (w : world) : session :=
  {| logged_in := logged_in s; user := user s; store := w |}.

(** The onboarding form, [if st.form_submit_button("Launch Dashboard")]. *)
Definition onboarding_view (email : string) (data : bus_data) (s : session)
    : option session :=
  if existsb (String.eqb (bus_type data))
       ["Sole Proprietorship"; "Corporation"; "Partnership"]
     && existsb (String.eqb (bus_province data)) PROVINCES
  then
    if String.eqb (bus_name data) "" then Some s
    else Some (with_store s (exec (create_business email data) (store s)))
  else None.

(** One run of [dashboard_view] on an event of the dashboard.  [None]: the
    page does not offer the event.  A run that raises leaves the session as
    it was. *)
Definition dashboard_view (business_id : uuid) (e : event) (s : session)
    : option session :=
  match e with
  | LogOut =>
      Some {| logged_in := false; user := None;
              store := {| w_uuid := w_uuid (store s); w_db := empty_db |} |}
  | SaveTransaction f now =>
      let accounts := get_accounts (w_db (store s)) business_id in
      let transactions := get_transactions (w_db (store s)) business_id in
      match dashboard_kpis accounts transactions with
      | Raise _ => Some s
      | Ok _ =>
          if tx_form_offered accounts f then
            match save_transaction business_id accounts f now with
            | Ok m => Some (with_store s (exec m (store s)))
            | Raise _ => Some s
            end
          else None
      end
  | CreateAccount aname atype abal =>
      let accounts := get_accounts (w_db (store s)) business_id in
      let transactions := get_transactions (w_db (store s)) business_id in
      match dashboard_kpis accounts transactions with
      | Raise _ => Some s
      | Ok _ =>
          if existsb (String.eqb atype) ["Bank"; "Credit Card"; "Cash"]
             && number_input None abal
          then Some (with_store s
                       (exec (create_account business_id aname atype abal)
                             (store s)))
          else None
      end
  | LogIn _ | LaunchDashboard _ => None
  end.

Definition main (e : event) (s : session) : option session :=
  if negb (logged_in s) then
    match e with
    | LogIn email =>
        Some {| logged_in := true; user := Some email; store := store s |}
    | _ => None
    end
  else
    match user s with
    | None => None
    | Some user_email =>
        match get_business_by_user (w_db (store s)) user_email with
        | None =>
            match e with
            | LaunchDashboard data => onboarding_view user_email data s
            | _ => None
            end
        | Some (business_id, _) => dashboard_view business_id e s
        end
    end.

Fixpoint run (es : list event) (s : session) : option session :=
  match es with
  | [] => Some s
  | e :: rest =>
      match main e s with
      | Some s' => run rest s'
      | None => None
      end
  end.

(** The sessions a user can bring about. *)
Definition reachable (s : session) : Prop :=
  exists es : list event, run es init_session = Some s.

(** ** The scenario of the specification *)

Definition demo_business : bus_data :=
  {| bus_name := "Maple Leaf Consulting Inc."; bus_type := "Corporation";
     bus_bn := ""; bus_city := "Ottawa"; bus_province := "Ontario" |}.

Definition scenario_events : list event :=
  [ LogIn "demo@business.ca";
    LaunchDashboard demo_business;
    SaveTransaction
      {| f_tx_type := "Inflow"; f_amount := 1000%float;
         f_desc := "Invoice 17"; f_category := "Sales";
         f_account_name := Some "Main Chequing";
         f_to_account_name := None |} 1%Z;
    SaveTransaction
      {| f_tx_type := "Outflow"; f_amount := 200%float;
         f_desc := "Tim Hortons"; f_category := "Meals & Entertainment";
         f_account_name := Some "Main Chequing";
         f_to_account_name := None |} 2%Z;
    SaveTransaction
      {| f_tx_type := "Transfer"; f_amount := 150%float;
         f_desc := "Card payment"; f_category := "Bank Fees";
         f_account_name := Some "Main Chequing";
         f_to_account_name := Some "Corporate Card" |} 3%Z ].

Definition session_after (es : list event) : session :=
  match run es init_session with
  | Some s => s
  | None => init_session
  end.

Definition scenario_session : session :=
  Eval vm_compute in session_after scenario_events.

(** Two deposits of ten and twenty cents. *)
Definition drift_events : list event :=
  [ LogIn "demo@business.ca";
    LaunchDashboard demo_business;
    SaveTransaction
      {| f_tx_type := "Inflow"; f_amount := 0.1%float;
         f_desc := "Coins"; f_category := "Sales";
         f_account_name := Some "Main Chequing";
         f_to_account_name := None |} 1%Z;
    SaveTransaction
      {| f_tx_type := "Inflow"; f_amount := 0.2%float;
         f_desc := "Coins"; f_category := "Sales";
         f_account_name := Some "Main Chequing";
         f_to_account_name := None |} 2%Z ].

Definition drift_session : session :=
  Eval vm_compute in session_after drift_events.

(** An account form left empty, and a transfer from an account to itself as
    [add_transaction] can be handed one. *)
Definition self_transfer : tx_data :=
  {| d_type := "Transfer"; d_amount := 150%float;
     d_description := "Card payment"; d_category := "Transfer";
     d_account_id := 1;
     d_from_account_id := Some 1; d_to_account_id := Some 1 |}.

Definition refund : tx_data :=
  {| d_type := "Outflow"; d_amount := (-5)%float;
     d_description := "Refund"; d_category := "Sales";
     d_account_id := 1;
     d_from_account_id := None; d_to_account_id := None |}.

(** ** dashboard_view: the ledger table and its search box *)

(** [Series.str.contains(pat, case=False)] leaves [regex] at its default,
    [True]: the pattern is compiled by [re] with [re.IGNORECASE] and looked
    for with [search].  The model covers the patterns made of ordinary
    characters and of the dot; [compile] answers [None] on every other
    pattern (quantifiers, classes, groups, anchors, escapes), which is then
    outside the model.  Text is ASCII. *)
Module Re.

Inductive atom : Type :=
| Lit (c : ascii)
| Dot.

Definition regex : Type := list atom.

Definition special : list ascii :=
  list_ascii_of_string ".^$*+?{}[]\|()".

Definition is_special (c : ascii) : bool :=
  existsb (Ascii.eqb c) special.

Definition lower_char (c : ascii) : ascii :=
  let n := nat_of_ascii c in
  if Nat.leb 65 n && Nat.leb n 90 then ascii_of_nat (n + 32) else c.

Fixpoint compile (pat : string) : option regex :=
  match pat with
  | EmptyString => Some []
  | String c rest =>
      if Ascii.eqb c "."%char then option_map (cons Dot) (compile rest)
      else if is_special c then None
      else option_map (cons (Lit c)) (compile rest)
  end.

Definition newline : ascii := ascii_of_nat 10.

Definition atom_matches (a : atom) (c : ascii) : bool :=
  match a with
  | Lit l => Ascii.eqb (lower_char l) (lower_char c)
  | Dot => negb (Ascii.eqb c newline)
  end.

Fixpoint match_here (r : regex) (s : string) : bool :=
  match r, s with
  | [], _ => true
  | a :: r', String c s' => atom_matches a c && match_here r' s'
  | _ :: _, EmptyString => false
  end.

Fixpoint search (r : regex) (s : string) : bool :=
  match_here r s
  || match s with
     | EmptyString => false
     | String _ s' => search r s'
     end.

End Re.

Definition str_contains (pat : string) : option (string -> bool) :=
  option_map Re.search (Re.compile pat).

(** The rows of the table of the Transactions tab for a search text. *)
Definition ledger_table (transactions : list transaction) (search : string)
    : option (list transaction) :=
  match transactions with
  | [] => Some []
  | _ :: _ =>
      if String.eqb search "" then Some transactions
      else
        match str_contains search with
        | Some found =>
            Some (filter (fun t => found (t_description t)
                                   || found (t_category t)) transactions)
        | None => None
        end
  end.

Definition list_transactions (db : database) (business_id : uuid)
    (search : string) : option (list transaction) :=
  ledger_table (get_transactions db business_id) search.

(** ** The specification's words *)

(** The signed effect of a transaction on the balance of one account. *)
Definition spec_signed_effect (aid : uuid) (balance : float)
    (t : transaction) : float :=
  let amt := t_amount t in
  if String.eqb (t_type t) "Inflow" then
    if Nat.eqb (t_account_id t) aid then (balance + amt)%float else balance
  else if String.eqb (t_type t) "Outflow" then
    if Nat.eqb (t_account_id t) aid then (balance - amt)%float else balance
  else if String.eqb (t_type t) "Transfer" then
    let balance :=
      match t_from_account_id t with
      | Some f => if Nat.eqb f aid then (balance - amt)%float else balance
      | None => balance
      end in
    match t_to_account_id t with
    | Some g => if Nat.eqb g aid then (balance + amt)%float else balance
    | None => balance
    end
  else balance.

(** Opening balance plus the signed effects, in insertion order. *)
Definition spec_balance (acc : account) (transactions : list transaction)
    : float :=
  fold_left (spec_signed_effect (a_id acc)) transactions
            (a_initial_balance acc).

Definition is_credit_card (acc : account) : bool :=
  String.eqb (a_type acc) "Credit Card".

(** Sum of the balances of the accounts whose kind is not Credit Card. *)
Definition spec_assets (accounts : list account)
    (acc_balances : dict uuid float) : float :=
  py_sum (map (balance_of acc_balances)
              (filter (fun a => negb (is_credit_card a)) accounts)).

(** Sum of the absolute balances of the Credit Card accounts and of the other
    accounts whose balance is negative. *)
Definition spec_liabilities (accounts : list account)
    (acc_balances : dict uuid float) : float :=
  py_sum (map (fun a => abs (balance_of acc_balances a))
              (filter (fun a => is_credit_card a
                                || (balance_of acc_balances a <? 0)%float)
                      accounts)).

(** The number a finite float stands for. *)
Definition float_to_Q (x : float) : Q :=
  match Prim2SF x with
  | S754_finite s m e =>
      let v := (inject_Z (Zpos m) * 2 ^ e)%Q in
      if s then (- v)%Q else v
  | _ => 0%Q
  end.

(** The signed effect on one account in exact arithmetic. *)
Definition exact_signed_effect (aid : uuid) (balance : Q) (t : transaction)
    : Q :=
  let amt := float_to_Q (t_amount t) in
  if String.eqb (t_type t) "Inflow" then
    if Nat.eqb (t_account_id t) aid then (balance + amt)%Q else balance
  else if String.eqb (t_type t) "Outflow" then
    if Nat.eqb (t_account_id t) aid then (balance - amt)%Q else balance
  else if String.eqb (t_type t) "Transfer" then
    let balance :=
      match t_from_account_id t with
      | Some f => if Nat.eqb f aid then (balance - amt)%Q else balance
      | None => balance
      end in
    match t_to_account_id t with
    | Some g => if Nat.eqb g aid then (balance + amt)%Q else balance
    | None => balance
    end
  else balance.

Definition exact_balance (acc : account) (transactions : list transaction)
    : Q :=
  fold_left (exact_signed_effect (a_id acc)) transactions
            (float_to_Q (a_initial_balance acc)).

(** [needle in hay] *)
Fixpoint is_substring (needle hay : string) : bool :=
  String.prefix needle hay
  || match hay with
     | EmptyString => false
     | String _ hay' => is_substring needle hay'
     end.

Definition lower (s : string) : string :=
  string_of_list_ascii (map Re.lower_char (list_ascii_of_string s)).

(** Case-insensitive substring. *)
Definition contains_ci (needle hay : string) : bool :=
  is_substring (lower needle) (lower hay).

(** The transactions whose description or category contains the filter. *)
Definition spec_list_transactions (db : database) (business_id : uuid)
    (search : string) : list transaction :=
  filter (fun t => contains_ci search (t_description t)
                   || contains_ci search (t_category t))
         (get_transactions db business_id).

(** ** Well-formed stores *)

(** The account references of a transaction, as the balance loop reads them,
    are among [ids]. *)
Definition refs_ok (ids : list uuid) (t : transaction) : Prop :=
  (t_type t = "Inflow" \/ t_type t = "Outflow" -> In (t_account_id t) ids)
  /\ (t_type t = "Transfer" ->
      exists f g, t_from_account_id t = Some f /\ t_to_account_id t = Some g
                  /\ In f ids /\ In g ids).

(** What the transaction form guarantees of a stored transaction, given the
    account collection. *)
Definition tx_ok (accounts : list account) (t : transaction) : Prop :=
  let ids :=
    map a_id (filter (fun a => Nat.eqb (a_business_id a) (t_business_id t))
                     accounts) in
  (0.01 <=? t_amount t)%float = true
  /\ In (t_type t) ["Outflow"; "Inflow"; "Transfer"]
  /\ In (t_account_id t) ids
  /\ (t_type t = "Transfer" ->
      t_category t = "Transfer"
      /\ exists f g, t_from_account_id t = Some f
                     /\ t_to_account_id t = Some g
                     /\ f <> g /\ In f ids /\ In g ids).

(** What a saved form hands to [add_transaction]. *)
Definition data_ok (accounts : list account) (f : tx_form) (data : tx_data)
    : Prop :=
  d_type data = f_tx_type f
  /\ d_amount data = f_amount f
  /\ d_description data = f_desc f
  /\ In (d_account_id data) (map a_id accounts)
  /\ (d_type data <> "Transfer" ->
      d_category data = f_category f
      /\ d_from_account_id data = None /\ d_to_account_id data = None)
  /\ (d_type data = "Transfer" ->
      d_category data = "Transfer"
      /\ exists src dst,
           d_from_account_id data = Some src
           /\ d_to_account_id data = Some dst
           /\ src <> dst
           /\ In src (map a_id accounts) /\ In dst (map a_id accounts)).

Record store_ok (w : world) : Prop := {
  ok_fresh : Forall (fun a => a_id a < w_uuid w) (db_accounts (w_db w));
  ok_nodup : NoDup (map a_id (db_accounts (w_db w)));
  ok_active : Forall (fun a => a_is_active a = true) (db_accounts (w_db w));
  ok_txs : Forall (tx_ok (db_accounts (w_db w))) (db_transactions (w_db w))
}.

(** ** dashboard_view: the account column and the account cards *)

(** [acc_map = {a['id']: a['name'] for a in accounts}] *)
Definition acc_map_of (accounts : list account) : dict uuid string :=
  dict_of (map (fun a => (a_id a, a_name a)) accounts).

(** [df['account_id'].map(acc_map)]: the name of the account of each row,
    [None] standing for the missing value pandas puts where the identifier
    is not a key of the map. *)
Definition account_column (accounts : list account)
    (transactions : list transaction) : list (option string) :=
  map (fun t => dict_get (acc_map_of accounts) (t_account_id t)) transactions.

(** A card of the grid of the Accounts tab. *)
Record card : Type := {
  c_column : nat;
  c_type : string;
  c_name : string;
  c_balance : float;
  c_red : bool
}.

(** [enumerate(accounts)] from a first index. *)
Fixpoint enumerate_from {A : Type} (idx : nat) (l : list A)
    : list (nat * A) :=
  match l with
  | [] => []
  | x :: rest => (idx, x) :: enumerate_from (S idx) rest
  end.

(** The loop [for idx, acc in enumerate(accounts)] of the Accounts tab. *)
Definition accounts_grid (accounts : list account)
    (acc_balances : dict uuid float) : list card :=
  map (fun ia =>
         let bal := balance_of acc_balances (snd ia) in
         {| c_column := fst ia mod 3;
            c_type := a_type (snd ia);
            c_name := a_name (snd ia);
            c_balance := bal;
            c_red := (bal <? 0)%float |})
      (enumerate_from 0 accounts).

(** ** Shapes of the session *)

(** The accounts a transaction moves, as the balance loop reads them. *)
Definition touched (t : transaction) : list uuid :=
  if String.eqb (t_type t) "Inflow" then [t_account_id t]
  else if String.eqb (t_type t) "Outflow" then [t_account_id t]
  else if String.eqb (t_type t) "Transfer" then
    match t_from_account_id t with Some f => [f] | None => [] end
    ++ match t_to_account_id t with Some g => [g] | None => [] end
  else [].

(** The two accounts [create_business] seeds. *)
Definition default_accounts (business_id : uuid) : list account :=
  [ {| a_id := S business_id; a_business_id := business_id;
       a_name := "Main Chequing"; a_type := "Bank";
       a_initial_balance := 0%float; a_is_active := true |};
    {| a_id := S (S business_id); a_business_id := business_id;
       a_name := "Corporate Card"; a_type := "Credit Card";
       a_initial_balance := 0%float; a_is_active := true |} ].

(** What the onboarding form lets through. *)
Definition bus_data_ok (data : bus_data) : Prop :=
  bus_name data <> ""
  /\ In (bus_type data) ["Sole Proprietorship"; "Corporation"; "Partnership"]
  /\ In (bus_province data) PROVINCES.

(** The three shapes a session can have: logged out with an empty store,
    logged in before onboarding with an empty store, and logged in with one
    business of the user, its two seeded accounts first. *)
Inductive session_shape (s : session) : Prop :=
| shape_logged_out :
    logged_in s = false -> user s = None -> w_db (store s) = empty_db ->
    session_shape s
| shape_onboarding (email : string) :
    logged_in s = true -> user s = Some email ->
    w_db (store s) = empty_db ->
    session_shape s
| shape_dashboard (email : string) (business_id : uuid) (data : bus_data)
    (more : list account) (transactions : list transaction) :
    logged_in s = true -> user s = Some email ->
    w_db (store s)
      = {| db_users := [];
           db_businesses :=
             [ (business_id,
                {| b_data := data; b_owner_email := email |}) ];
           db_accounts := default_accounts business_id ++ more;
           db_transactions := transactions |} ->
    bus_data_ok data ->
    Forall (fun a => a_business_id a = business_id) more ->
    Forall (fun t => t_business_id t = business_id) transactions ->
    session_shape s.

(** Every identifier handed out so far, in the three collections. *)
Definition all_ids (db : database) : list uuid :=
  dict_keys (db_businesses db) ++ map a_id (db_accounts db)
  ++ map t_id (db_transactions db).

Definition ids_ok (w : world) : Prop :=
  NoDup (all_ids (w_db w)) /\ Forall (fun i => i < w_uuid w) (all_ids (w_db w)).

(** [l] is the beginning of [l']. *)
Definition extends {A : Type} (l l' : list A) : Prop :=
  exists more, l' = l ++ more.

(** How the handler of the transaction form fills the dictionary it hands
    to [add_transaction]. *)
Definition form_data (f : tx_form) (data : tx_data) : Prop :=
  d_type data = f_tx_type f
  /\ d_amount data = f_amount f
  /\ d_description data = f_desc f
  /\ (f_tx_type f = "Transfer" ->
      d_category data = "Transfer"
      /\ d_from_account_id data = Some (d_account_id data)
      /\ d_to_account_id data <> None)
  /\ (f_tx_type f <> "Transfer" ->
      d_category data = f_category f
      /\ d_from_account_id data = None /\ d_to_account_id data = None).

(** The keys of a stored transaction by kind. *)
Definition record_ok (t : transaction) : Prop :=
  In (t_type t) ["Outflow"; "Inflow"; "Transfer"]
  /\ (t_type t = "Transfer" ->
      t_from_account_id t = Some (t_account_id t)
      /\ t_to_account_id t <> None)
  /\ (t_type t <> "Transfer" ->
      In (t_category t) CATEGORIES
      /\ t_from_account_id t = None /\ t_to_account_id t = None).

(** The identifier names an account of the business in the collection. *)
Definition account_of (accounts : list account) (business_id aid : uuid)
    : Prop :=
  exists acc, In acc accounts /\ a_id acc = aid
              /\ a_business_id acc = business_id.

(** Lower case of the characters of a pattern. *)
Definition lower_atom (a : Re.atom) : Re.atom :=
  match a with
  | Re.Lit c => Re.Lit (Re.lower_char c)
  | Re.Dot => Re.Dot
  end.

(** ** recordTransaction calls *)

(** [acc_options[name]] as a lookup: the identifier a selection stands
    for. *)
Definition selected_id (accounts : list account) (name : option string)
    : option uuid :=
  match name with
  | Some n => dict_get (acc_options_of accounts) n
  | None => None
  end.

(** The dictionary the handler of the form builds once [acc_options] has
    given the identifier [account_id] for the selected account. *)
Definition form_record (accounts : list account) (f : tx_form)
    (account_id : uuid) : tx_data :=
  {| d_type := f_tx_type f;
     d_amount := f_amount f;
     d_description := f_desc f;
     d_category := if String.eqb (f_tx_type f) "Transfer"
                   then "Transfer" else f_category f;
     d_account_id := account_id;
     d_from_account_id := if String.eqb (f_tx_type f) "Transfer"
                          then Some account_id else None;
     d_to_account_id := if String.eqb (f_tx_type f) "Transfer"
                        then selected_id accounts (f_to_account_name f)
                        else None |}.

(** The record [add_transaction] stores for a dictionary without keys
    [id], [business_id] and [date]. *)
Definition tx_record (id business_id : uuid) (now : Z) (data : tx_data)
    : transaction :=
  {| t_id := id; t_business_id := business_id; t_date := now;
     t_type := d_type data; t_amount := d_amount data;
     t_description := d_description data;
     t_category := d_category data;
     t_account_id := d_account_id data;
     t_from_account_id := d_from_account_id data;
     t_to_account_id := d_to_account_id data |}.

(** A recordTransaction call is a saved form with the time of the call.
    The stored record [t] is the one of the call [c]. *)
Definition stored_as (accounts : list account) (business_id : uuid)
    (c : tx_form * Z) (t : transaction) : Prop :=
  exists account_id,
    selected_id accounts (f_account_name (fst c)) = Some account_id
    /\ t = tx_record (t_id t) business_id (snd c)
                     (form_record accounts (fst c) account_id).

(** The signed effect of a call on the balance of the account [aid], in the
    words of the specification: an Inflow adds the amount to its account, an
    Outflow subtracts it, a Transfer subtracts it from the from-account and
    adds it to the to-account. *)
Definition call_effect (accounts : list account) (aid : uuid)
    (balance : float) (f : tx_form) : float :=
  let amt := f_amount f in
  let hits (name : option string) : bool :=
    match selected_id accounts name with
    | Some i => Nat.eqb i aid
    | None => false
    end in
  if String.eqb (f_tx_type f) "Inflow" then
    if hits (f_account_name f) then (balance + amt)%float else balance
  else if String.eqb (f_tx_type f) "Outflow" then
    if hits (f_account_name f) then (balance - amt)%float else balance
  else if String.eqb (f_tx_type f) "Transfer" then
    let balance :=
      if hits (f_account_name f) then (balance - amt)%float else balance in
    if hits (f_to_account_name f) then (balance + amt)%float else balance
  else balance.

Definition save_events (calls : list (tx_form * Z)) : list event :=
  map (fun c => SaveTransaction (fst c) (snd c)) calls.

(** The calls of the scenario, on the session as onboarding leaves it. *)
Definition scenario_calls : list (tx_form * Z) :=
  [ ({| f_tx_type := "Inflow"; f_amount := 1000%float;
        f_desc := "Invoice 17"; f_category := "Sales";
        f_account_name := Some "Main Chequing";
        f_to_account_name := None |}, 1%Z);
    ({| f_tx_type := "Outflow"; f_amount := 200%float;
        f_desc := "Tim Hortons"; f_category := "Meals & Entertainment";
        f_account_name := Some "Main Chequing";
        f_to_account_name := None |}, 2%Z);
    ({| f_tx_type := "Transfer"; f_amount := 150%float;
        f_desc := "Card payment"; f_category := "Bank Fees";
        f_account_name := Some "Main Chequing";
        f_to_account_name := Some "Corporate Card" |}, 3%Z) ].

Definition onboarded_session : session :=
  Eval vm_compute in
    session_after [ LogIn "demo@business.ca"; LaunchDashboard demo_business ].

(** Amounts large enough for the balances to leave the finite floats: two
    deposits on the Bank account, two payments from the Credit Card. *)
Definition overflow_calls : list (tx_form * Z) :=
  [ ({| f_tx_type := "Inflow"; f_amount := 1e308%float;
        f_desc := "Sale"; f_category := "Sales";
        f_account_name := Some "Main Chequing";
        f_to_account_name := None |}, 1%Z);
    ({| f_tx_type := "Inflow"; f_amount := 1e308%float;
        f_desc := "Sale"; f_category := "Sales";
        f_account_name := Some "Main Chequing";
        f_to_account_name := None |}, 2%Z);
    ({| f_tx_type := "Outflow"; f_amount := 1e308%float;
        f_desc := "Rent"; f_category := "Rent";
        f_account_name := Some "Corporate Card";
        f_to_account_name := None |}, 3%Z);
    ({| f_tx_type := "Outflow"; f_amount := 1e308%float;
        f_desc := "Rent"; f_category := "Rent";
        f_account_name := Some "Corporate Card";
        f_to_account_name := None |}, 4%Z) ].

Definition overflow_session : session :=
  Eval vm_compute in
    session_after ([ LogIn "demo@business.ca"; LaunchDashboard demo_business ]
                   ++ save_events overflow_calls).

(** ** The KPIs in terms of the ledger *)

(** Sum of the balances of the accounts whose kind is not Credit Card, each
    balance being the opening balance moved by the signed effects of the
    transactions. *)
Definition ledger_assets (accounts : list account)
    (transactions : list transaction) : float :=
  py_sum (map (fun a => spec_balance a transactions)
              (filter (fun a => negb (is_credit_card a)) accounts)).

(** Sum of the absolute balances of the Credit Card accounts and of the
    other accounts whose balance is negative. *)
Definition ledger_liabilities (accounts : list account)
    (transactions : list transaction) : float :=
  py_sum (map (fun a => abs (spec_balance a transactions))
              (filter (fun a => is_credit_card a
                                || (spec_balance a transactions <? 0)%float)
                      accounts)).

(** ** add_transaction on any dictionary *)

(** [{'id': ..., 'business_id': ..., 'date': ..., **data}]: a key of [data]
    named [id], [business_id] or [date] takes the place of the generated
    value.  [raw_data] is a dictionary that holds the keys of the form and
    may hold these three as well; [add_transaction] above is the case where
    it holds none of them, which is the case of its one caller. *)
Record raw_data : Type := {
  r_id : option uuid;
  r_business_id : option uuid;
  r_date : option Z;
  r_data : tx_data
}.

Definition or_default {A : Type} (o : option A) (d : A) : A :=
  match o with
  | Some a => a
  | None => d
  end.

Definition add_transaction_raw (business_id : uuid) (now : Z)
    (data : raw_data) : M unit :=
  id <- uuid4 ;;
  let tx := tx_record (or_default (r_id data) id)
                      (or_default (r_business_id data) business_id)
                      (or_default (r_date data) now)
                      (r_data data) in
  db <- get_db ;;
  put_db {| db_users := db_users db; db_businesses := db_businesses db;
            db_accounts := db_accounts db;
            db_transactions := db_transactions db ++ [tx] |}.

(** * Properties *)

(** ** Dictionaries *)

Section DictFacts.
Context {K V : Type} `{EqKey K}.

Lemma key_eqb_refl (k : K) : key_eqb k k = true.
Proof. destruct (key_eqb_spec k k); congruence. Qed.

Lemma key_eqb_neq (k k' : K) : k <> k' -> key_eqb k k' = false.
Proof. intro Hn. destruct (key_eqb_spec k k'); congruence. Qed.

Lemma dict_get_set_eq (d : dict K V) (k : K) (v : V) :
  dict_get (dict_set d k v) k = Some v.
Proof.
  induction d as [|[k' v'] d IH]; simpl.
  - now rewrite key_eqb_refl.
  - destruct (key_eqb_spec k' k) as [->|Hn]; simpl.
    + now rewrite key_eqb_refl.
    + now rewrite key_eqb_neq by assumption.
Qed.

Lemma dict_get_set_neq (d : dict K V) (k k' : K) (v : V) :
  k <> k' -> dict_get (dict_set d k v) k' = dict_get d k'.
Proof.
  intro Hn. induction d as [|[k0 v0] d IH]; simpl.
  - now rewrite key_eqb_neq by assumption.
  - destruct (key_eqb_spec k0 k) as [->|Hk]; simpl.
    + now rewrite key_eqb_neq by assumption.
    + now rewrite IH.
Qed.

Lemma dict_keys_set_in (d : dict K V) (k : K) (v : V) :
  In k (dict_keys d) -> dict_keys (dict_set d k v) = dict_keys d.
Proof.
  induction d as [|[k' v'] d IH]; simpl; [tauto|].
  intros [->|Hin].
  - now rewrite key_eqb_refl.
  - destruct (key_eqb k' k); simpl; [reflexivity|].
    f_equal. now apply IH.
Qed.

Lemma dict_set_notin (d : dict K V) (k : K) (v : V) :
  ~ In k (dict_keys d) -> dict_set d k v = d ++ [(k, v)].
Proof.
  induction d as [|[k' v'] d IH]; simpl; [reflexivity|].
  intro Hn. destruct (key_eqb_spec k' k) as [->|Hk]; [tauto|].
  f_equal. apply IH. tauto.
Qed.

Lemma dict_get_in (d : dict K V) (k : K) (v : V) :
  dict_get d k = Some v -> In (k, v) d.
Proof.
  induction d as [|[k' v'] d IH]; simpl; [discriminate|].
  destruct (key_eqb_spec k' k) as [->|Hk].
  - intros [= ->]. now left.
  - intro Hg. right. now apply IH.
Qed.

Lemma dict_get_keys (d : dict K V) (k : K) :
  In k (dict_keys d) <-> exists v, dict_get d k = Some v.
Proof.
  induction d as [|[k' v'] d IH]; simpl.
  - split; [tauto|]. intros [v Hv]. discriminate.
  - destruct (key_eqb_spec k' k) as [->|Hk].
    + split; [eauto|]. now left.
    + rewrite <- IH. split; [|tauto]. intros [Hc|Hin]; [congruence|assumption].
Qed.

Lemma dict_get_nodup (d : dict K V) (k : K) (v : V) :
  NoDup (dict_keys d) -> In (k, v) d -> dict_get d k = Some v.
Proof.
  induction d as [|[k' v'] d IH]; simpl; [tauto|].
  intros Hnd [Heq|Hin].
  - injection Heq as -> ->. now rewrite key_eqb_refl.
  - inversion Hnd as [|? ? Hni Hnd']; subst.
    destruct (key_eqb_spec k' k) as [->|Hk].
    + exfalso. apply Hni. change (In (fst (k, v)) (map fst d)).
      now apply in_map.
    + now apply IH.
Qed.

Lemma dict_set_fold_get (l : list (K * V)) (d : dict K V) (k : K) (v : V) :
  dict_get (fold_left (fun d kv => dict_set d (fst kv) (snd kv)) l d) k
    = Some v ->
  In (k, v) l \/ dict_get d k = Some v.
Proof.
  revert d. induction l as [|[k0 v0] l IH]; simpl; intros d Hg; [now right|].
  apply IH in Hg. destruct Hg as [Hin|Hg]; [now left; right|].
  destruct (key_eqb_spec k0 k) as [->|Hk].
  - rewrite dict_get_set_eq in Hg. injection Hg as ->. now left; left.
  - rewrite dict_get_set_neq in Hg by assumption. now right.
Qed.

(** A value found in a comprehension was produced for that key. *)
Lemma dict_of_get_in (l : list (K * V)) (k : K) (v : V) :
  dict_get (dict_of l) k = Some v -> In (k, v) l.
Proof.
  intro Hg. apply dict_set_fold_get in Hg.
  destruct Hg as [Hin|Hg]; [assumption|discriminate].
Qed.

Lemma dict_set_fold_nodup (l : list (K * V)) (d : dict K V) :
  NoDup (dict_keys d ++ map fst l) ->
  fold_left (fun d kv => dict_set d (fst kv) (snd kv)) l d = d ++ l.
Proof.
  revert d. induction l as [|[k0 v0] l IH]; simpl; intros d Hnd.
  - now rewrite app_nil_r.
  - assert (Hni : ~ In k0 (dict_keys d)).
    { intro Hin. apply NoDup_remove_2 in Hnd. apply Hnd.
      apply in_or_app. now left. }
    rewrite (dict_set_notin _ _ _ Hni), IH.
    + now rewrite <- app_assoc.
    + unfold dict_keys in *. rewrite map_app, <- app_assoc. exact Hnd.
Qed.

(** With pairwise distinct keys the comprehension is the list of pairs. *)
Lemma dict_of_nodup (l : list (K * V)) :
  NoDup (map fst l) -> dict_of l = l.
Proof.
  intro Hnd. unfold dict_of. now rewrite dict_set_fold_nodup.
Qed.

(** [d[k] = f(d[k])] on a present key: the keys stay, and so do the other
    values. *)
Lemma dict_update_spec (d : dict K V) (k : K) (f : V -> V) :
  In k (dict_keys d) ->
  exists b, dict_get d k = Some b
    /\ dict_keys (dict_set d k (f b)) = dict_keys d
    /\ forall k' v, dict_get d k' = Some v ->
         dict_get (dict_set d k (f b)) k'
           = Some (if key_eqb k k' then f v else v).
Proof.
  intro Hin. destruct (proj1 (dict_get_keys d k) Hin) as [b Hb].
  exists b. split; [assumption|]. split; [now apply dict_keys_set_in|].
  intros k' v Hv. destruct (key_eqb_spec k k') as [<-|Hn].
  - rewrite dict_get_set_eq. congruence.
  - now rewrite dict_get_set_neq.
Qed.

End DictFacts.

(** ** The balance loop *)

Ltac case_type t :=
  destruct (String.eqb_spec (t_type t) "Inflow");
  [| destruct (String.eqb_spec (t_type t) "Outflow");
     [| destruct (String.eqb_spec (t_type t) "Transfer") ] ].

Lemma dict_item_get {K V : Type} `{EqKey K} (d : dict K V) (k : K) (v : V) :
  dict_get d k = Some v -> dict_item d k = Ok v.
Proof. unfold dict_item. now intros ->. Qed.

(** One round of the loop on a transaction whose references are keys of the
    dictionary: no [KeyError], the keys are kept and every balance moves by
    the signed effect of the transaction. *)
Lemma apply_transaction_ok (acc_balances : dict uuid float)
    (t : transaction) :
  refs_ok (dict_keys acc_balances) t ->
  exists acc_balances',
    apply_transaction acc_balances t = Ok acc_balances'
    /\ dict_keys acc_balances' = dict_keys acc_balances
    /\ forall aid b, dict_get acc_balances aid = Some b ->
         dict_get acc_balances' aid = Some (spec_signed_effect aid b t).
Proof.
  intros [Hsingle Hpair].
  unfold apply_transaction, spec_signed_effect, py_float.
  case_type t.
  - destruct (dict_update_spec acc_balances (t_account_id t)
                (fun b => (b + t_amount t)%float)) as (b & Hb & Hk & Hv);
      [now apply Hsingle; left|].
    rewrite (dict_item_get _ _ _ Hb). simpl. eexists. split; [reflexivity|].
    split; [assumption|]. intros aid v Hg. now rewrite (Hv _ _ Hg).
  - destruct (dict_update_spec acc_balances (t_account_id t)
                (fun b => (b - t_amount t)%float)) as (b & Hb & Hk & Hv);
      [now apply Hsingle; right|].
    rewrite (dict_item_get _ _ _ Hb). simpl. eexists. split; [reflexivity|].
    split; [assumption|]. intros aid v Hg. now rewrite (Hv _ _ Hg).
  - destruct (Hpair e) as (f & g & Hf & Hg & Hinf & Hing).
    rewrite Hf, Hg. simpl.
    destruct (dict_update_spec acc_balances f
                (fun b => (b - t_amount t)%float)) as (b & Hb & Hk & Hv);
      [assumption|].
    rewrite (dict_item_get _ _ _ Hb). simpl.
    rewrite <- Hk in Hing.
    destruct (dict_update_spec
                (dict_set acc_balances f (b - t_amount t)%float) g
                (fun b => (b + t_amount t)%float))
      as (b' & Hb' & Hk' & Hv'); [assumption|].
    rewrite (dict_item_get _ _ _ Hb'). simpl. eexists. split; [reflexivity|].
    split; [congruence|]. intros aid v Hget.
    now rewrite (Hv' _ _ (Hv _ _ Hget)).
  - eexists. split; [reflexivity|]. split; [reflexivity|]. now intros.
Qed.

Lemma balance_loop_ok (transactions : list transaction) :
  forall acc_balances : dict uuid float,
  Forall (refs_ok (dict_keys acc_balances)) transactions ->
  exists acc_balances',
    balance_loop acc_balances transactions = Ok acc_balances'
    /\ dict_keys acc_balances' = dict_keys acc_balances
    /\ forall aid b, dict_get acc_balances aid = Some b ->
         dict_get acc_balances' aid
           = Some (fold_left (spec_signed_effect aid) transactions b).
Proof.
  induction transactions as [|t rest IH]; intros acc_balances Hrefs.
  - exists acc_balances. simpl. auto.
  - inversion Hrefs as [|? ? Ht Hrest]; subst.
    destruct (apply_transaction_ok acc_balances t Ht) as (d1 & Hd1 & Hk1 & Hv1).
    rewrite <- Hk1 in Hrest.
    destruct (IH d1 Hrest) as (d2 & Hd2 & Hk2 & Hv2).
    exists d2. simpl. rewrite Hd1. simpl. split; [assumption|].
    split; [congruence|]. intros aid b Hb. now apply Hv2, Hv1.
Qed.

Lemma initial_balances_nodup (accounts : list account) :
  NoDup (map a_id accounts) ->
  dict_of (map (fun a => (a_id a, a_initial_balance a)) accounts)
    = map (fun a => (a_id a, a_initial_balance a)) accounts.
Proof.
  intro Hnd. apply dict_of_nodup. now rewrite map_map.
Qed.

(** The balances of a business whose account identifiers are pairwise
    distinct and whose transactions refer to its accounts. *)
Lemma calc_balances_ok (accounts : list account)
    (transactions : list transaction) :
  NoDup (map a_id accounts) ->
  Forall (refs_ok (map a_id accounts)) transactions ->
  exists acc_balances,
    calc_balances accounts transactions = Ok acc_balances
    /\ dict_keys acc_balances = map a_id accounts
    /\ forall acc, In acc accounts ->
         dict_get acc_balances (a_id acc)
           = Some (spec_balance acc transactions).
Proof.
  intros Hnd Hrefs. unfold calc_balances.
  rewrite (initial_balances_nodup _ Hnd).
  set (d0 := map (fun a => (a_id a, a_initial_balance a)) accounts).
  assert (Hk0 : dict_keys d0 = map a_id accounts).
  { unfold d0, dict_keys. now rewrite map_map. }
  rewrite <- Hk0 in Hrefs.
  destruct (balance_loop_ok transactions d0 Hrefs) as (d & Hd & Hk & Hv).
  exists d. split; [assumption|]. split; [congruence|].
  intros acc Hin. apply Hv. apply dict_get_nodup.
  - now rewrite Hk0.
  - unfold d0. now apply (in_map (fun a => (a_id a, a_initial_balance a))).
Qed.

(** A loop that ends without [KeyError] has kept the keys. *)
Lemma apply_transaction_keys (acc_balances acc_balances' : dict uuid float)
    (t : transaction) :
  apply_transaction acc_balances t = Ok acc_balances' ->
  dict_keys acc_balances' = dict_keys acc_balances.
Proof.
  assert (Hstep : forall (d d' : dict uuid float) k (f : float -> float),
    (try b <- dict_item d k in Ok (dict_set d k (f b))) = Ok d' ->
    dict_keys d' = dict_keys d).
  { intros d d' k f. unfold dict_item.
    destruct (dict_get d k) as [b|] eqn:Hb; simpl; [|discriminate].
    intros [= <-]. apply dict_keys_set_in. apply dict_get_keys. eauto. }
  unfold apply_transaction, py_float. case_type t.
  - apply Hstep with (f := fun b => (b + t_amount t)%float).
  - apply Hstep with (f := fun b => (b - t_amount t)%float).
  - destruct (t_from_account_id t) as [f|]; simpl; [|discriminate].
    unfold dict_item at 1.
    destruct (dict_get acc_balances f) as [b|] eqn:Hb; simpl; [|discriminate].
    destruct (t_to_account_id t) as [g|]; simpl; [|discriminate].
    intro Hg.
    apply Hstep with (f := fun b => (b + t_amount t)%float) in Hg.
    rewrite Hg. apply dict_keys_set_in. apply dict_get_keys. eauto.
  - now intros [= <-].
Qed.

Lemma balance_loop_keys (transactions : list transaction) :
  forall acc_balances acc_balances' : dict uuid float,
  balance_loop acc_balances transactions = Ok acc_balances' ->
  dict_keys acc_balances' = dict_keys acc_balances.
Proof.
  induction transactions as [|t rest IH]; simpl; intros d d' Hd.
  - now injection Hd as <-.
  - destruct (apply_transaction d t) as [d1|] eqn:H1; simpl in Hd;
      [|discriminate].
    rewrite (IH _ _ Hd). now apply apply_transaction_keys with t.
Qed.

Lemma calc_balances_keys (accounts : list account)
    (transactions : list transaction) (acc_balances : dict uuid float) :
  NoDup (map a_id accounts) ->
  calc_balances accounts transactions = Ok acc_balances ->
  dict_keys acc_balances = map a_id accounts.
Proof.
  intros Hnd Hc. unfold calc_balances in Hc.
  rewrite (initial_balances_nodup _ Hnd) in Hc.
  apply balance_loop_keys in Hc. rewrite Hc.
  unfold dict_keys. now rewrite map_map.
Qed.

(** ** The KPIs *)

Lemma map_injective_in {A B : Type} (f : A -> B) (l : list A) (x y : A) :
  NoDup (map f l) -> In x l -> In y l -> f x = f y -> x = y.
Proof.
  induction l as [|a l IH]; simpl; [tauto|].
  intros Hnd Hx Hy Hf. inversion Hnd as [|? ? Hni Hnd']; subst.
  destruct Hx as [->|Hx], Hy as [->|Hy]; auto.
  - exfalso. apply Hni. rewrite Hf. now apply in_map.
  - exfalso. apply Hni. rewrite <- Hf. now apply in_map.
Qed.

(** With distinct identifiers the test of the [assets] generator on the
    identifier of an account is the test of its kind. *)
Lemma is_asset_id_account (accounts : list account) (acc : account) :
  NoDup (map a_id accounts) -> In acc accounts ->
  is_asset_id accounts (a_id acc) = negb (is_credit_card acc).
Proof.
  intros Hnd Hin. unfold is_asset_id.
  destruct (negb (is_credit_card acc)) eqn:Hcc.
  - apply existsb_exists. exists acc. split; [assumption|].
    unfold is_credit_card in Hcc. now rewrite Hcc, Nat.eqb_refl.
  - apply not_true_is_false. intro Hex.
    apply existsb_exists in Hex. destruct Hex as (a' & Hin' & Ha').
    apply andb_prop in Ha'. destruct Ha' as [Hty Hid].
    apply Nat.eqb_eq in Hid.
    assert (a' = acc) by now apply (map_injective_in a_id accounts).
    subst a'. unfold is_credit_card in Hcc. congruence.
Qed.

Lemma assets_summands (accounts : list account)
    (acc_balances : dict uuid float) :
  NoDup (map a_id accounts) ->
  forall (l : list account) (d : dict uuid float),
  incl l accounts ->
  (forall k v, In (k, v) d -> dict_get acc_balances k = Some v) ->
  dict_keys d = map a_id l ->
  map snd (filter (fun kv => is_asset_id accounts (fst kv)) d)
    = map (balance_of acc_balances)
          (filter (fun a => negb (is_credit_card a)) l).
Proof.
  intros Hnd l. induction l as [|a l IH]; intros d Hincl Hget Hkeys.
  - destruct d; [reflexivity|discriminate].
  - destruct d as [|[k v] d]; [discriminate|].
    simpl in Hkeys. injection Hkeys as -> Hkeys. simpl.
    rewrite (is_asset_id_account accounts a Hnd) by (apply Hincl; now left).
    assert (Hrest :
      map snd (filter (fun kv => is_asset_id accounts (fst kv)) d)
        = map (balance_of acc_balances)
              (filter (fun a => negb (is_credit_card a)) l)).
    { apply IH; [|intros; apply Hget; now right|assumption].
      intros x Hx. apply Hincl. now right. }
    destruct (negb (is_credit_card a)); simpl; [|assumption].
    f_equal; [|assumption].
    unfold balance_of. now rewrite (Hget (a_id a) v) by now left.
Qed.

(** The generator of [assets] yields the balances of the accounts that are
    not credit cards, in the order of the accounts. *)
Lemma calc_assets_spec (accounts : list account)
    (acc_balances : dict uuid float) :
  NoDup (map a_id accounts) ->
  dict_keys acc_balances = map a_id accounts ->
  calc_assets accounts acc_balances = spec_assets accounts acc_balances.
Proof.
  intros Hnd Hk. unfold calc_assets, spec_assets, dict_items. f_equal.
  apply assets_summands; auto.
  - apply incl_refl.
  - intros k v Hin. apply dict_get_nodup; [|assumption]. now rewrite Hk.
Qed.

Lemma liabilities_loop_spec (acc_balances : dict uuid float)
    (accounts : list account) :
  forall liabilities : float,
  incl (map a_id accounts) (dict_keys acc_balances) ->
  liabilities_loop acc_balances accounts liabilities
    = Ok (fold_left PrimFloat.add
            (map (fun a => abs (balance_of acc_balances a))
                 (filter (fun a => is_credit_card a
                                   || (balance_of acc_balances a <? 0)%float)
                         accounts))
            liabilities).
Proof.
  induction accounts as [|acc rest IH]; intros liabilities Hincl;
    [reflexivity|].
  assert (Hin : In (a_id acc) (dict_keys acc_balances))
    by (apply Hincl; now left).
  assert (Hrest : incl (map a_id rest) (dict_keys acc_balances))
    by (intros x Hx; apply Hincl; now right).
  apply dict_get_keys in Hin. destruct Hin as [bal Hbal].
  assert (Hbo : balance_of acc_balances acc = bal)
    by (unfold balance_of; now rewrite Hbal).
  cbn [liabilities_loop filter]. rewrite (dict_item_get _ _ _ Hbal).
  cbn [rbind]. rewrite Hbo. unfold is_credit_card at 1.
  destruct (String.eqb (a_type acc) "Credit Card"); cbn [orb].
  - cbn [map fold_left]. rewrite Hbo. now apply IH.
  - destruct (bal <? 0)%float.
    + cbn [map fold_left]. rewrite Hbo. now apply IH.
    + now apply IH.
Qed.

(** ** The forms keep the store well formed *)

Lemma existsb_eqb_in (x : string) (l : list string) :
  existsb (String.eqb x) l = true -> In x l.
Proof.
  intro Hex. apply existsb_exists in Hex. destruct Hex as (y & Hy & Hxy).
  apply String.eqb_eq in Hxy. now subst.
Qed.

(** Selecting accounts keeps their identifiers pairwise distinct. *)
Lemma filter_ids_nodup (keep : account -> bool) (accounts : list account) :
  NoDup (map a_id accounts) -> NoDup (map a_id (filter keep accounts)).
Proof.
  induction accounts as [|acc rest IH]; simpl; intro Hnd; [constructor|].
  inversion Hnd as [|? ? Hfresh Hrest]; subst.
  destruct (keep acc); simpl; [|now apply IH].
  constructor; [|now apply IH].
  intro Hin. apply Hfresh. apply in_map_iff in Hin.
  destruct Hin as (other & Hid & Hin). apply filter_In in Hin.
  rewrite <- Hid. apply in_map. tauto.
Qed.

(** A name of the account selector stands for an account of the list. *)
Lemma acc_options_account (accounts : list account) (n : string)
    (aid : uuid) :
  dict_get (acc_options_of accounts) n = Some aid ->
  exists acc, In acc accounts /\ a_name acc = n /\ a_id acc = aid.
Proof.
  intro Hg. apply dict_of_get_in in Hg. apply in_map_iff in Hg.
  destruct Hg as (acc & Heq & Hin). injection Heq as Hn Hi. eauto.
Qed.

Lemma option_item_account (accounts : list account) (name : option string)
    (aid : uuid) :
  option_item (acc_options_of accounts) name = Ok aid ->
  exists n acc, name = Some n /\ In acc accounts
                /\ a_name acc = n /\ a_id acc = aid.
Proof.
  destruct name as [n|]; simpl; [|discriminate].
  unfold dict_item.
  destruct (dict_get (acc_options_of accounts) n) as [i|] eqn:Hg;
    [|discriminate].
  intros [= ->]. destruct (acc_options_account _ _ _ Hg) as (acc & ? & ? & ?).
  eauto 6.
Qed.

Lemma save_transaction_data (business_id : uuid) (accounts : list account)
    (f : tx_form) (now : Z) (m : M unit) :
  NoDup (map a_id accounts) ->
  tx_form_offered accounts f = true ->
  save_transaction business_id accounts f now = Ok m ->
  exists data, m = add_transaction business_id now data
               /\ data_ok accounts f data.
Proof.
  intros Hnd Hoff Hsave. unfold tx_form_offered in Hoff.
  repeat (apply andb_prop in Hoff; destruct Hoff as [Hoff ?]).
  unfold save_transaction in Hsave.
  destruct (option_item (acc_options_of accounts) (f_account_name f))
    as [aid|] eqn:Ha; [|discriminate].
  destruct (option_item_account _ _ _ Ha) as (n & acc & Hname & Hin & Hn & Hi).
  cbn [rbind] in Hsave.
  destruct (String.eqb_spec (f_tx_type f) "Transfer") as [Hty|Hty].
  - destruct (option_item (acc_options_of accounts) (f_to_account_name f))
      as [tid|] eqn:Ht; [|discriminate].
    destruct (option_item_account _ _ _ Ht)
      as (n' & acc' & Hname' & Hin' & Hn' & Hi').
    cbn [rbind] in Hsave. injection Hsave as <-.
    eexists. split; [reflexivity|]. unfold data_ok. cbn.
    repeat split; try reflexivity; try tauto.
    + rewrite <- Hi. now apply in_map.
    + exists aid, tid. repeat split.
      * intro Heq. subst tid.
        assert (acc = acc').
        { apply (map_injective_in a_id accounts); congruence. }
        subst acc'.
        match goal with
        | Hsel : selectbox _ (f_to_account_name f) = true |- _ =>
            rewrite Hname', Hname in Hsel; simpl in Hsel;
            apply existsb_exists in Hsel;
            destruct Hsel as (x & Hx & Hxn);
            apply String.eqb_eq in Hxn; subst x;
            apply filter_In in Hx; destruct Hx as [_ Hx]; simpl in Hx
        end.
        rewrite <- Hn, <- Hn', String.eqb_refl in Hx. discriminate.
      * rewrite <- Hi. now apply in_map.
      * rewrite <- Hi'. now apply in_map.
  - cbn [rbind] in Hsave. injection Hsave as <-.
    eexists. split; [reflexivity|]. unfold data_ok. cbn.
    repeat split; try reflexivity; try tauto.
    rewrite <- Hi. now apply in_map.
Qed.

Lemma exec_create_account (business_id : uuid) (name type_ : string)
    (balance : float) (w : world) :
  exec (create_account business_id name type_ balance) w
    = {| w_uuid := S (w_uuid w);
         w_db := {| db_users := db_users (w_db w);
                    db_businesses := db_businesses (w_db w);
                    db_accounts :=
                      db_accounts (w_db w)
                      ++ [ {| a_id := w_uuid w;
                              a_business_id := business_id;
                              a_name := name; a_type := type_;
                              a_initial_balance := balance;
                              a_is_active := true |} ];
                    db_transactions := db_transactions (w_db w) |} |}.
Proof. reflexivity. Qed.

Lemma exec_add_transaction (business_id : uuid) (now : Z) (data : tx_data)
    (w : world) :
  exec (add_transaction business_id now data) w
    = {| w_uuid := S (w_uuid w);
         w_db := {| db_users := db_users (w_db w);
                    db_businesses := db_businesses (w_db w);
                    db_accounts := db_accounts (w_db w);
                    db_transactions :=
                      db_transactions (w_db w)
                      ++ [ {| t_id := w_uuid w;
                              t_business_id := business_id;
                              t_date := now;
                              t_type := d_type data;
                              t_amount := d_amount data;
                              t_description := d_description data;
                              t_category := d_category data;
                              t_account_id := d_account_id data;
                              t_from_account_id := d_from_account_id data;
                              t_to_account_id := d_to_account_id data |} ]
                 |} |}.
Proof. reflexivity. Qed.

Lemma business_ids_app (accounts more : list account) (bid : uuid)
    (aid : uuid) :
  In aid (map a_id (filter (fun a => Nat.eqb (a_business_id a) bid)
                           accounts)) ->
  In aid (map a_id (filter (fun a => Nat.eqb (a_business_id a) bid)
                           (accounts ++ more))).
Proof.
  rewrite filter_app, map_app. intro Hin. apply in_or_app. now left.
Qed.

(** Appending accounts keeps a transaction well formed. *)
Lemma tx_ok_app (accounts more : list account) (t : transaction) :
  tx_ok accounts t -> tx_ok (accounts ++ more) t.
Proof.
  unfold tx_ok. intros (Hamt & Hty & Hacc & Htr).
  repeat split; auto using business_ids_app.
  - now apply Htr.
  - destruct (Htr H) as (_ & src & dst & ? & ? & ? & ? & ?).
    exists src, dst. auto 10 using business_ids_app.
Qed.

Lemma store_ok_uuid4 (w : world) (db : database) :
  store_ok w ->
  db_accounts db = db_accounts (w_db w) ->
  db_transactions db = db_transactions (w_db w) ->
  store_ok {| w_uuid := S (w_uuid w); w_db := db |}.
Proof.
  intros [Hf Hn Ha Ht] Hacc Htx.
  constructor; cbn; rewrite ?Hacc, ?Htx; auto.
  eapply Forall_impl; [|exact Hf]. cbn. intros; lia.
Qed.

Lemma create_account_ok (business_id : uuid) (name type_ : string)
    (balance : float) (w : world) :
  store_ok w ->
  store_ok (exec (create_account business_id name type_ balance) w).
Proof.
  intros [Hf Hn Ha Ht]. rewrite exec_create_account.
  constructor; cbn.
  - apply Forall_app. split.
    + eapply Forall_impl; [|exact Hf]. cbn. intros; lia.
    + constructor; [cbn; lia|constructor].
  - rewrite map_app. cbn. apply NoDup_app_remove_l with (l := []).
    cbn. apply NoDup_app; [assumption|repeat constructor; tauto|].
    intros x Hx [<-|[]]. apply in_map_iff in Hx.
    destruct Hx as (a & Hid & Hin).
    rewrite Forall_forall in Hf. specialize (Hf a Hin). lia.
  - apply Forall_app. split; [assumption|]. now repeat constructor.
  - eapply Forall_impl; [|exact Ht]. intros t. apply tx_ok_app.
Qed.

Lemma create_business_ok (user_email : string) (data : bus_data)
    (w : world) :
  store_ok w -> store_ok (exec (create_business user_email data) w).
Proof.
  intro Hok.
  change (exec (create_business user_email data) w)
    with (exec (create_account (w_uuid w) "Corporate Card" "Credit Card" 0)
            (exec (create_account (w_uuid w) "Main Chequing" "Bank" 0)
               {| w_uuid := S (w_uuid w);
                  w_db := {| db_users := db_users (w_db w);
                             db_businesses :=
                               dict_set (db_businesses (w_db w)) (w_uuid w)
                                 {| b_data := data;
                                    b_owner_email := user_email |};
                             db_accounts := db_accounts (w_db w);
                             db_transactions := db_transactions (w_db w) |}
               |})).
  do 2 apply create_account_ok. now apply store_ok_uuid4.
Qed.

Lemma add_transaction_ok (business_id : uuid) (now : Z) (f : tx_form)
    (data : tx_data) (w : world) :
  store_ok w ->
  number_input (Some 0.01%float) (f_amount f) = true ->
  In (f_tx_type f) ["Outflow"; "Inflow"; "Transfer"] ->
  data_ok (get_accounts (w_db w) business_id) f data ->
  store_ok (exec (add_transaction business_id now data) w).
Proof.
  intros [Hf Hn Ha Ht] Hamt Hty (Hdt & Hda & _ & Hacc & _ & Htr).
  rewrite exec_add_transaction. constructor; cbn; auto.
  - eapply Forall_impl; [|exact Hf]. cbn. intros; lia.
  - apply Forall_app. split; [assumption|]. constructor; [|constructor].
    unfold tx_ok. cbn. split; [|split; [|split]].
    + rewrite Hda. unfold number_input in Hamt.
      apply andb_prop in Hamt. tauto.
    + now rewrite Hdt.
    + exact Hacc.
    + exact Htr.
Qed.

Lemma tx_form_offered_inv (accounts : list account) (f : tx_form) :
  tx_form_offered accounts f = true ->
  number_input (Some 0.01%float) (f_amount f) = true
  /\ In (f_tx_type f) ["Outflow"; "Inflow"; "Transfer"]
  /\ In (f_category f) CATEGORIES.
Proof.
  unfold tx_form_offered. intro Hoff.
  repeat (apply andb_prop in Hoff; destruct Hoff as [Hoff ?]).
  auto using existsb_eqb_in.
Qed.

Lemma store_ok_empty (n : nat) :
  store_ok {| w_uuid := n; w_db := empty_db |}.
Proof. constructor; cbn; constructor. Qed.

Lemma get_accounts_nodup (w : world) (business_id : uuid) :
  store_ok w -> NoDup (map a_id (get_accounts (w_db w) business_id)).
Proof. intros [_ Hn _ _]. now apply filter_ids_nodup. Qed.

Lemma dashboard_view_ok (business_id : uuid) (e : event) (s s' : session) :
  store_ok (store s) ->
  dashboard_view business_id e s = Some s' ->
  store_ok (store s').
Proof.
  intro Hok. destruct e as [email|data|f now|aname atype abal|];
    cbn [dashboard_view]; try discriminate.
  - destruct (dashboard_kpis _ _); [|now intros [= <-]].
    destruct (tx_form_offered _ f) eqn:Hoff; [|discriminate].
    destruct (save_transaction _ _ f now) as [m|] eqn:Hsave;
      intros [= <-]; [|assumption].
    destruct (save_transaction_data _ _ _ _ _
                (get_accounts_nodup _ business_id Hok) Hoff Hsave)
      as (data & -> & Hdata).
    destruct (tx_form_offered_inv _ _ Hoff) as (Hamt & Hty & _).
    cbn. now apply add_transaction_ok with f.
  - destruct (dashboard_kpis _ _); [|now intros [= <-]].
    destruct (_ && _); [|discriminate].
    intros [= <-]. cbn. now apply create_account_ok.
  - intros [= <-]. apply store_ok_empty.
Qed.

Lemma main_ok (e : event) (s s' : session) :
  store_ok (store s) -> main e s = Some s' -> store_ok (store s').
Proof.
  intro Hok. unfold main.
  destruct (negb (logged_in s)).
  - destruct e; try discriminate. now intros [= <-].
  - destruct (user s) as [user_email|]; [|discriminate].
    destruct (get_business_by_user _ _) as [[business_id b]|].
    + now apply dashboard_view_ok.
    + destruct e; try discriminate. unfold onboarding_view.
      destruct (_ && _); [|discriminate].
      destruct (String.eqb _ _); intros [= <-]; [assumption|].
      cbn. now apply create_business_ok.
Qed.

Lemma run_ok (es : list event) :
  forall s s' : session,
  store_ok (store s) -> run es s = Some s' -> store_ok (store s').
Proof.
  induction es as [|e es IH]; simpl; intros s s' Hok Hrun.
  - now injection Hrun as <-.
  - destruct (main e s) as [s1|] eqn:Hmain; [|discriminate].
    apply (IH s1); [|assumption]. now apply main_ok with e s.
Qed.

(** Every session a user can bring about has a well-formed store. *)
Lemma reachable_ok (s : session) : reachable s -> store_ok (store s).
Proof.
  intros [es Hrun]. apply (run_ok es init_session); [|assumption].
  apply store_ok_empty.
Qed.

Lemma tx_ok_refs (accounts : list account) (t : transaction) :
  tx_ok accounts t ->
  refs_ok (map a_id (filter (fun a => Nat.eqb (a_business_id a)
                                              (t_business_id t)) accounts))
          t.
Proof.
  intros (_ & _ & Hacc & Htr). split; [auto|].
  intro Hty. destruct (Htr Hty) as (_ & src & dst & ? & ? & _ & ? & ?).
  now exists src, dst.
Qed.

(** The transactions of a business refer to its accounts. *)
Lemma get_transactions_refs (w : world) (business_id : uuid) :
  store_ok w ->
  Forall (refs_ok (map a_id (get_accounts (w_db w) business_id)))
         (get_transactions (w_db w) business_id).
Proof.
  intros [_ _ _ Ht]. apply Forall_forall. intros t Hin.
  apply filter_In in Hin. destruct Hin as [Hin Hb].
  apply Nat.eqb_eq in Hb. rewrite Forall_forall in Ht.
  specialize (Ht t Hin). apply tx_ok_refs in Ht. now rewrite Hb in Ht.
Qed.

(** * The claims of the specification *)

(** In every session a user can bring about the balance loop ends without
    an exception for every business, and gives each account of the business
    its opening balance moved by the signed effects of the stored
    transactions of the business, in their order. *)
Lemma reachable_balances_fold (s : session) (business_id : uuid) :
  reachable s ->
  exists acc_balances,
    calc_balances (get_accounts (w_db (store s)) business_id)
                  (get_transactions (w_db (store s)) business_id)
      = Ok acc_balances
    /\ forall acc, In acc (get_accounts (w_db (store s)) business_id) ->
         dict_get acc_balances (a_id acc)
           = Some (spec_balance acc
                     (get_transactions (w_db (store s)) business_id)).
Proof.
  intro Hr. apply reachable_ok in Hr.
  destruct (calc_balances_ok
              (get_accounts (w_db (store s)) business_id)
              (get_transactions (w_db (store s)) business_id)
              (get_accounts_nodup _ business_id Hr)
              (get_transactions_refs _ business_id Hr))
    as (d & Hd & _ & Hv).
  now exists d.
Qed.

(** C3.  The scenario: a business with its Bank account and its Credit Card
    account, both opened at 0; Inflow 1000 to the Bank account, Outflow 200
    from it, Transfer 150 from it to the Credit Card.  The Bank balance is
    650, the Credit Card balance is 150, assets are 650, liabilities 150 and
    the net position 500. *)
Theorem scenario_kpis :
  run scenario_events init_session = Some scenario_session
  /\ map (fun a => (a_id a, a_type a, a_initial_balance a))
         (get_accounts (w_db (store scenario_session)) 0)
     = [ (1, "Bank", 0%float); (2, "Credit Card", 0%float) ]
  /\ dashboard_kpis (get_accounts (w_db (store scenario_session)) 0)
                    (get_transactions (w_db (store scenario_session)) 0)
     = Ok {| k_balances := [ (1, 650%float); (2, 150%float) ];
             k_assets := 650%float;
             k_liabilities := 150%float;
             k_net_position := 500%float |}.
Proof. repeat split; vm_compute; reflexivity. Qed.

(** C10.  In every session a user can bring about, every account record of
    the store has its active flag set: [create_account] sets it and nothing
    clears it. *)
Theorem accounts_always_active (s : session) :
  reachable s ->
  Forall (fun a => a_is_active a = true) (db_accounts (w_db (store s))).
Proof. intro Hr. now destruct (reachable_ok s Hr). Qed.

Lemma accounts_always_active_witness :
  reachable scenario_session
  /\ Forall (fun a => a_is_active a = true)
            (db_accounts (w_db (store scenario_session))).
Proof.
  assert (Hr : reachable scenario_session)
    by (exists scenario_events; vm_compute; reflexivity).
  split; [exact Hr|exact (accounts_always_active scenario_session Hr)].
Defined.

(** C9.  In every session a user can bring about, every stored transaction
    of kind Transfer has the category "Transfer", whatever category the form
    held, and that category is not one of [CATEGORIES]. *)
Theorem transfer_category (s : session) :
  reachable s ->
  forall t, In t (db_transactions (w_db (store s))) ->
  t_type t = "Transfer" ->
  t_category t = "Transfer" /\ ~ In (t_category t) CATEGORIES.
Proof.
  intros Hr t Hin Hty. destruct (reachable_ok s Hr) as [_ _ _ Ht].
  rewrite Forall_forall in Ht. destruct (Ht t Hin) as (_ & _ & _ & Htr).
  destruct (Htr Hty) as [Hcat _]. split; [assumption|].
  rewrite Hcat. unfold CATEGORIES. simpl. intuition discriminate.
Qed.

Lemma transfer_category_witness :
  reachable scenario_session
  /\ forall t, In t (db_transactions (w_db (store scenario_session))) ->
     t_type t = "Transfer" ->
     t_category t = "Transfer" /\ ~ In (t_category t) CATEGORIES.
Proof.
  assert (Hr : reachable scenario_session)
    by (exists scenario_events; vm_compute; reflexivity).
  split; [exact Hr|exact (transfer_category scenario_session Hr)].
Defined.

Lemma add_transaction_appends (business_id : uuid) (now : Z)
    (data : tx_data) (w : world) :
  exists t,
    db_transactions (w_db (exec (add_transaction business_id now data) w))
      = db_transactions (w_db w) ++ [t]
    /\ t_business_id t = business_id
    /\ t_type t = d_type data /\ t_amount t = d_amount data
    /\ t_from_account_id t = d_from_account_id data
    /\ t_to_account_id t = d_to_account_id data.
Proof. rewrite exec_add_transaction. eexists. cbn. auto 10. Qed.

Lemma app_one_neq {A : Type} (l : list A) (x : A) : l ++ [x] <> l.
Proof.
  intro Heq. apply (f_equal (@List.length A)) in Heq.
  rewrite List.length_app in Heq. simpl in Heq. lia.
Qed.

(** C2, as stated: a non-positive amount would leave the ledger as it was.
    [add_transaction] checks nothing and appends. *)
Lemma nonpositive_amount_counterexample :
  ~ (forall (w : world) (business_id : uuid) (now : Z) (data : tx_data),
       (d_amount data <=? 0)%float = true ->
       db_transactions
         (w_db (exec (add_transaction business_id now data) w))
         = db_transactions (w_db w)).
Proof.
  intro Hclaim.
  specialize (Hclaim (store scenario_session) 0 4%Z refund eq_refl).
  destruct (add_transaction_appends 0 4%Z refund (store scenario_session))
    as (t & Happ & _).
  rewrite Happ in Hclaim. now apply app_one_neq in Hclaim.
Qed.

(** C2, amended.  [add_transaction] appends one record whatever the amount
    and raises nothing; the amount field of the transaction form has the
    minimum 0.01, so in every session a user can bring about every stored
    amount is at least 0.01. *)
Theorem stored_amounts_positive (s : session) :
  reachable s ->
  Forall (fun t => (0.01 <=? t_amount t)%float = true)
         (db_transactions (w_db (store s)))
  /\ forall business_id now data,
       exists t,
         db_transactions
           (w_db (exec (add_transaction business_id now data) (store s)))
           = db_transactions (w_db (store s)) ++ [t]
         /\ t_amount t = d_amount data.
Proof.
  intro Hr. split.
  - destruct (reachable_ok s Hr) as [_ _ _ Ht].
    eapply Forall_impl; [|exact Ht]. intros t Hok. apply Hok.
  - intros business_id now data.
    destruct (add_transaction_appends business_id now data (store s))
      as (t & Happ & _ & _ & Hamt & _).
    now exists t.
Qed.

Lemma stored_amounts_positive_witness :
  reachable scenario_session
  /\ Forall (fun t => (0.01 <=? t_amount t)%float = true)
            (db_transactions (w_db (store scenario_session)))
  /\ forall business_id now data,
       exists t,
         db_transactions
           (w_db (exec (add_transaction business_id now data)
                       (store scenario_session)))
           = db_transactions (w_db (store scenario_session)) ++ [t]
         /\ t_amount t = d_amount data.
Proof.
  assert (Hr : reachable scenario_session)
    by (exists scenario_events; vm_compute; reflexivity).
  split; [exact Hr|exact (stored_amounts_positive scenario_session Hr)].
Defined.

(** C5, as stated: a transfer from an account to itself would leave the
    ledger as it was.  [add_transaction] appends it. *)
Lemma self_transfer_counterexample :
  ~ (forall (w : world) (business_id : uuid) (now : Z) (data : tx_data),
       d_type data = "Transfer" ->
       d_from_account_id data = d_to_account_id data ->
       db_transactions
         (w_db (exec (add_transaction business_id now data) w))
         = db_transactions (w_db w)).
Proof.
  intro Hclaim.
  specialize (Hclaim (store scenario_session) 0 4%Z self_transfer
                eq_refl eq_refl).
  destruct (add_transaction_appends 0 4%Z self_transfer
              (store scenario_session)) as (t & Happ & _).
  rewrite Happ in Hclaim. now apply app_one_neq in Hclaim.
Qed.

(** C5, amended.  [add_transaction] does not compare the two accounts of a
    transfer; the "To Account" selector of the form leaves out the name
    chosen under "Account", so in every session a user can bring about every
    stored Transfer has a from-account and a to-account that differ. *)
Theorem stored_transfers_distinct (s : session) :
  reachable s ->
  forall t, In t (db_transactions (w_db (store s))) ->
  t_type t = "Transfer" ->
  exists src dst,
    t_from_account_id t = Some src /\ t_to_account_id t = Some dst
    /\ src <> dst.
Proof.
  intros Hr t Hin Hty. destruct (reachable_ok s Hr) as [_ _ _ Ht].
  rewrite Forall_forall in Ht. destruct (Ht t Hin) as (_ & _ & _ & Htr).
  destruct (Htr Hty) as (_ & src & dst & Hf & Hg & Hne & _).
  now exists src, dst.
Qed.

Lemma stored_transfers_distinct_witness :
  reachable scenario_session
  /\ forall t, In t (db_transactions (w_db (store scenario_session))) ->
     t_type t = "Transfer" ->
     exists src dst,
       t_from_account_id t = Some src /\ t_to_account_id t = Some dst
       /\ src <> dst.
Proof.
  assert (Hr : reachable scenario_session)
    by (exists scenario_events; vm_compute; reflexivity).
  split; [exact Hr|exact (stored_transfers_distinct scenario_session Hr)].
Defined.

(** C6, as stated: an empty name or an opening balance that is not finite
    would append nothing.  [create_account] checks neither. *)
Lemma create_account_counterexample :
  ~ (forall (w : world) (business_id : uuid) (name type_ : string)
            (balance : float),
       name = "" \/ is_finite balance = false ->
       db_accounts
         (w_db (exec (create_account business_id name type_ balance) w))
         = db_accounts (w_db w)).
Proof.
  intro Hclaim.
  specialize (Hclaim (store scenario_session) 0 "" "Bank" 0%float
                (or_introl eq_refl)).
  rewrite exec_create_account in Hclaim. cbn [w_db db_accounts] in Hclaim.
  now apply app_one_neq in Hclaim.
Qed.

(** C6, amended.  [create_account] never fails: for every name, the empty
    one too, and every opening balance, finite or not, it appends exactly
    one account, active, with the given fields and an identifier that no
    account of the store has; it returns no value. *)
Theorem create_account_appends_fresh (s : session) (business_id : uuid)
    (name type_ : string) (balance : float) :
  reachable s ->
  exists acc,
    db_accounts
      (w_db (exec (create_account business_id name type_ balance) (store s)))
      = db_accounts (w_db (store s)) ++ [acc]
    /\ a_business_id acc = business_id /\ a_name acc = name
    /\ a_type acc = type_ /\ a_initial_balance acc = balance
    /\ a_is_active acc = true
    /\ ~ In (a_id acc) (map a_id (db_accounts (w_db (store s))))
    /\ fst (create_account business_id name type_ balance (store s)) = tt.
Proof.
  intro Hr. destruct (reachable_ok s Hr) as [Hf _ _ _].
  rewrite exec_create_account. eexists. cbn.
  repeat split.
  intro Hin. apply in_map_iff in Hin. destruct Hin as (a & Hid & Hin).
  rewrite Forall_forall in Hf. specialize (Hf a Hin). cbn in Hid. lia.
Qed.

Lemma create_account_appends_fresh_witness :
  reachable scenario_session
  /\ exists acc,
       db_accounts
         (w_db (exec (create_account 0 "" "Cash" infinity)
                     (store scenario_session)))
         = db_accounts (w_db (store scenario_session)) ++ [acc]
       /\ a_business_id acc = 0 /\ a_name acc = ""
       /\ a_type acc = "Cash" /\ a_initial_balance acc = infinity
       /\ a_is_active acc = true
       /\ ~ In (a_id acc)
               (map a_id (db_accounts (w_db (store scenario_session))))
       /\ fst (create_account 0 "" "Cash" infinity (store scenario_session))
          = tt.
Proof.
  assert (Hr : reachable scenario_session)
    by (exists scenario_events; vm_compute; reflexivity).
  split; [exact Hr|].
  exact (create_account_appends_fresh scenario_session 0 "" "Cash"
           infinity Hr).
Defined.

(** C7, as stated: money would be exact, so a computed balance would be the
    exact sum of the opening balance and of the signed amounts.  After two
    deposits of 0.1 and 0.2 the balance of the Bank account is the float
    0.30000000000000004, which is not the sum of the two stored amounts. *)
Lemma exact_money_counterexample :
  ~ (forall (s : session) (business_id : uuid) (acc : account)
            (acc_balances : dict uuid float),
       reachable s ->
       In acc (get_accounts (w_db (store s)) business_id) ->
       calc_balances (get_accounts (w_db (store s)) business_id)
                     (get_transactions (w_db (store s)) business_id)
         = Ok acc_balances ->
       (float_to_Q (balance_of acc_balances acc)
        == exact_balance acc (get_transactions (w_db (store s)) business_id)
       )%Q).
Proof.
  intro Hclaim.
  assert (Hr : reachable drift_session)
    by (exists drift_events; vm_compute; reflexivity).
  specialize (Hclaim drift_session 0
                {| a_id := 1; a_business_id := 0; a_name := "Main Chequing";
                   a_type := "Bank"; a_initial_balance := 0%float;
                   a_is_active := true |}
                [ (1, (0.1 + 0.2)%float); (2, 0%float) ] Hr).
  assert (Hneq : Qeq_bool
            (float_to_Q (0.1 + 0.2)%float)
            (float_to_Q 0%float + float_to_Q 0.1%float
             + float_to_Q 0.2%float)%Q = false)
    by (vm_compute; reflexivity).
  apply Qeq_bool_neq in Hneq. apply Hneq.
  apply Hclaim; [now left|vm_compute; reflexivity].
Qed.

(** C7, amended.  Money is a binary64 float: [create_account] stores the
    opening balance it is given and [add_transaction] the amount it is
    given, neither rounded to two decimals, and the records already in the
    store are kept as they are. *)
Theorem stored_money_unrounded (w : world) (business_id : uuid)
    (name type_ : string) (balance : float) (now : Z) (data : tx_data) :
  (exists acc,
     db_accounts
       (w_db (exec (create_account business_id name type_ balance) w))
       = db_accounts (w_db w) ++ [acc]
     /\ a_initial_balance acc = balance
     /\ db_transactions
          (w_db (exec (create_account business_id name type_ balance) w))
        = db_transactions (w_db w))
  /\ (exists t,
        db_transactions
          (w_db (exec (add_transaction business_id now data) w))
          = db_transactions (w_db w) ++ [t]
        /\ t_amount t = d_amount data
        /\ db_accounts
             (w_db (exec (add_transaction business_id now data) w))
           = db_accounts (w_db w)).
Proof.
  rewrite exec_create_account, exec_add_transaction.
  split; eexists; cbn; auto.
Qed.

(** ** The search box *)

Lemma lower_String (c : ascii) (s : string) :
  lower (String c s) = String (Re.lower_char c) (lower s).
Proof. reflexivity. Qed.

Lemma prefix_empty (s : string) : String.prefix "" s = true.
Proof. now destruct s. Qed.

(** A pattern of literals matches at the head of a text when its lower-case
    form is a prefix of the lower-case text. *)
Lemma match_here_literal (p : string) :
  forall s : string,
  Re.match_here (map Re.Lit (list_ascii_of_string p)) s
    = String.prefix (lower p) (lower s).
Proof.
  induction p as [|c p IH]; intro s.
  - cbn. now rewrite prefix_empty.
  - destruct s as [|c' s]; [reflexivity|].
    rewrite !lower_String. cbn [list_ascii_of_string map Re.match_here].
    rewrite IH. cbn [Re.atom_matches String.prefix].
    destruct (Ascii.eqb_spec (Re.lower_char c) (Re.lower_char c'));
      destruct (ascii_dec (Re.lower_char c) (Re.lower_char c'));
      try reflexivity; contradiction.
Qed.

Lemma search_literal (p : string) :
  forall s : string,
  Re.search (map Re.Lit (list_ascii_of_string p)) s = contains_ci p s.
Proof.
  unfold contains_ci. induction s as [|c s IH].
  - cbn [Re.search]. rewrite match_here_literal. reflexivity.
  - cbn [Re.search]. rewrite match_here_literal, IH, lower_String.
    reflexivity.
Qed.

Lemma compile_literal (p : string) :
  forallb (fun c => negb (Re.is_special c)) (list_ascii_of_string p) = true ->
  Re.compile p = Some (map Re.Lit (list_ascii_of_string p)).
Proof.
  induction p as [|c p IH]; [reflexivity|].
  cbn [list_ascii_of_string forallb Re.compile map]. intro Hall.
  apply andb_prop in Hall. destruct Hall as [Hc Hp].
  apply negb_true_iff in Hc. rewrite Hc.
  unfold Re.is_special, Re.special in Hc. cbn [list_ascii_of_string existsb] in Hc.
  apply orb_false_elim in Hc. destruct Hc as [Hdot _].
  rewrite Hdot, (IH Hp). reflexivity.
Qed.

Lemma contains_ci_empty (s : string) : contains_ci "" s = true.
Proof. unfold contains_ci. cbn. destruct (lower s); reflexivity. Qed.

Lemma filter_all {A : Type} (p : A -> bool) (l : list A) :
  (forall x, p x = true) -> filter p l = l.
Proof.
  intro Hp. induction l as [|a l IH]; simpl; [reflexivity|].
  now rewrite Hp, IH.
Qed.

(** For a search text without characters that [re] reads as operators the
    table holds the transactions whose description or category contains the
    text, case apart. *)
Lemma literal_search_is_substring (db : database) (business_id : uuid)
    (search : string) :
  forallb (fun c => negb (Re.is_special c)) (list_ascii_of_string search)
    = true ->
  list_transactions db business_id search
    = Some (spec_list_transactions db business_id search).
Proof.
  intro Hlit. unfold list_transactions, spec_list_transactions, ledger_table.
  destruct (get_transactions db business_id) as [|t rest]; [reflexivity|].
  destruct (String.eqb_spec search "") as [->|Hne].
  - f_equal. symmetry. apply filter_all. intro x.
    now rewrite contains_ci_empty.
  - unfold str_contains. rewrite (compile_literal _ Hlit). cbn [option_map].
    f_equal. apply filter_ext. intro x. now rewrite !search_literal.
Qed.

(** C8, at the search text ".": no description and no category of the
    scenario holds a dot, so no transaction contains the text, yet the table
    keeps all three transactions, the dot being read as "any character". *)
Theorem search_dot_keeps_everything :
  Forall (fun t => contains_ci "." (t_description t) = false
                   /\ contains_ci "." (t_category t) = false)
         (get_transactions (w_db (store scenario_session)) 0)
  /\ spec_list_transactions (w_db (store scenario_session)) 0 "." = []
  /\ list_transactions (w_db (store scenario_session)) 0 "."
     = Some (get_transactions (w_db (store scenario_session)) 0)
  /\ List.length (get_transactions (w_db (store scenario_session)) 0) = 3.
Proof.
  split; [|repeat split; vm_compute; reflexivity].
  vm_compute. repeat constructor.
Qed.

(** A text found in the category of one transaction only: the table holds
    that transaction and no other. *)
Example search_by_category :
  list_transactions (w_db (store scenario_session)) 0 "meals"
    = Some (filter (fun t => String.eqb (t_description t) "Tim Hortons")
                   (get_transactions (w_db (store scenario_session)) 0))
  /\ List.length
       (filter (fun t => String.eqb (t_description t) "Tim Hortons")
               (get_transactions (w_db (store scenario_session)) 0)) = 1.
Proof. split; vm_compute; reflexivity. Qed.

(** * Further properties of the code *)

(** ** DataManager: what is written is what is read *)

(** X1.  After [create_account] the accounts of the business it names are
    the former ones followed by the new account, the accounts of every other
    business are as before, and businesses and transactions are untouched. *)
Theorem get_accounts_after_create (w : world) (business_id : uuid)
    (name type_ : string) (balance : float) (other : uuid) :
  let w' := exec (create_account business_id name type_ balance) w in
  get_accounts (w_db w') other
    = get_accounts (w_db w) other
      ++ (if Nat.eqb business_id other
          then [ {| a_id := w_uuid w; a_business_id := business_id;
                    a_name := name; a_type := type_;
                    a_initial_balance := balance; a_is_active := true |} ]
          else [])
  /\ db_transactions (w_db w') = db_transactions (w_db w)
  /\ db_businesses (w_db w') = db_businesses (w_db w).
Proof.
  cbv zeta. rewrite exec_create_account. cbn [w_db db_transactions db_businesses].
  split; [|split; reflexivity].
  unfold get_accounts. cbn [db_accounts]. rewrite filter_app. cbn [filter a_business_id].
  now destruct (Nat.eqb business_id other).
Qed.

(** X2.  [add_transaction] on any dictionary that holds the keys of the
    form: one record is appended, made of the dictionary; its identifier,
    business and date are the generated identifier, the business of the call
    and the time of the call unless the dictionary holds a key [id],
    [business_id] or [date], which then wins.  [get_transactions] of a
    business returns its former transactions, followed by the record when
    the business the record carries is that one.  Accounts and businesses
    are as before, and one identifier is drawn. *)
Theorem get_transactions_after_add (w : world) (business_id : uuid)
    (now : Z) (data : raw_data) (other : uuid) :
  let w' := exec (add_transaction_raw business_id now data) w in
  let t := tx_record (or_default (r_id data) (w_uuid w))
                     (or_default (r_business_id data) business_id)
                     (or_default (r_date data) now)
                     (r_data data) in
  db_transactions (w_db w') = db_transactions (w_db w) ++ [t]
  /\ get_transactions (w_db w') other
     = get_transactions (w_db w) other
       ++ (if Nat.eqb (or_default (r_business_id data) business_id) other
           then [t] else [])
  /\ db_accounts (w_db w') = db_accounts (w_db w)
  /\ db_businesses (w_db w') = db_businesses (w_db w)
  /\ w_uuid w' = S (w_uuid w)
  /\ forall d : tx_data,
       add_transaction_raw business_id now
         {| r_id := None; r_business_id := None; r_date := None;
            r_data := d |}
       = add_transaction business_id now d.
Proof.
  cbv zeta.
  change (exec (add_transaction_raw business_id now data) w)
    with {| w_uuid := S (w_uuid w);
            w_db := {| db_users := db_users (w_db w);
                       db_businesses := db_businesses (w_db w);
                       db_accounts := db_accounts (w_db w);
                       db_transactions :=
                         db_transactions (w_db w)
                         ++ [ tx_record
                                (or_default (r_id data) (w_uuid w))
                                (or_default (r_business_id data) business_id)
                                (or_default (r_date data) now)
                                (r_data data) ] |} |}.
  cbn [w_db w_uuid db_transactions db_accounts db_businesses].
  repeat split.
  unfold get_transactions. cbn [db_transactions]. rewrite filter_app.
  cbn [filter tx_record t_business_id].
  now destruct (Nat.eqb (or_default (r_business_id data) business_id) other).
Qed.

Lemma find_dict_set_new {V : Type} (p : uuid * V -> bool)
    (d : dict uuid V) (k : uuid) (v : V) :
  find p d = None -> p (k, v) = true ->
  find p (dict_set d k v) = Some (k, v).
Proof.
  intros Hnone Hp. induction d as [|[k' v'] d IH]; cbn in *.
  - now rewrite Hp.
  - destruct (p (k', v')) eqn:Hp'; [discriminate|].
    destruct (Nat.eqb_spec k' k) as [->|Hne]; cbn.
    + now rewrite Hp.
    + rewrite Hp'. now apply IH.
Qed.

Lemma find_dict_set_fresh {V : Type} (p : uuid * V -> bool)
    (d : dict uuid V) (k : uuid) (v : V) (e : uuid * V) :
  find p d = Some e -> ~ In k (dict_keys d) ->
  find p (dict_set d k v) = Some e.
Proof.
  intros Hsome Hfresh. rewrite (dict_set_notin _ _ _ Hfresh).
  induction d as [|kv d IH]; cbn in *; [discriminate|].
  destruct (p kv); [assumption|]. apply IH; tauto.
Qed.

Lemma exec_create_business (user_email : string) (data : bus_data)
    (w : world) :
  create_business user_email data w
    = (w_uuid w,
       {| w_uuid := S (S (S (w_uuid w)));
          w_db := {| db_users := db_users (w_db w);
                     db_businesses :=
                       dict_set (db_businesses (w_db w)) (w_uuid w)
                         {| b_data := data; b_owner_email := user_email |};
                     db_accounts :=
                       (db_accounts (w_db w)
                        ++ [ {| a_id := S (w_uuid w);
                                a_business_id := w_uuid w;
                                a_name := "Main Chequing"; a_type := "Bank";
                                a_initial_balance := 0%float;
                                a_is_active := true |} ])
                       ++ [ {| a_id := S (S (w_uuid w));
                               a_business_id := w_uuid w;
                               a_name := "Corporate Card";
                               a_type := "Credit Card";
                               a_initial_balance := 0%float;
                               a_is_active := true |} ];
                     db_transactions := db_transactions (w_db w) |} |}).
Proof. reflexivity. Qed.

(** X3.  When the user has no business yet, [create_business] returns the
    identifier under which [get_business_by_user] then finds the business,
    with the data of the form and the user as owner, and the accounts of
    that business end with the two seeded ones: "Main Chequing", a Bank
    account, and "Corporate Card", a Credit Card, both opened at 0. *)
Theorem business_found_after_create (w : world) (user_email : string)
    (data : bus_data) :
  get_business_by_user (w_db w) user_email = None ->
  let bus_id := fst (create_business user_email data w) in
  let w' := exec (create_business user_email data) w in
  bus_id = w_uuid w
  /\ get_business_by_user (w_db w') user_email
     = Some (bus_id, {| b_data := data; b_owner_email := user_email |})
  /\ get_accounts (w_db w') bus_id
     = get_accounts (w_db w) bus_id ++ default_accounts bus_id
  /\ db_transactions (w_db w') = db_transactions (w_db w).
Proof.
  intro Hnone. cbv zeta. unfold exec. rewrite exec_create_business.
  cbn [fst snd w_db db_transactions]. split; [reflexivity|].
  split; [|split; [|reflexivity]].
  - unfold get_business_by_user, dict_items in *. cbn [db_businesses].
    apply find_dict_set_new; [assumption|]. cbn. apply String.eqb_refl.
  - unfold get_accounts. cbn [db_accounts]. rewrite !filter_app.
    cbn [filter a_business_id]. rewrite Nat.eqb_refl.
    now rewrite <- app_assoc.
Qed.

Lemma business_found_after_create_witness :
  get_business_by_user (w_db (store init_session)) "demo@business.ca" = None
  /\ let bus_id :=
       fst (create_business "demo@business.ca" demo_business
              (store init_session)) in
     let w' := exec (create_business "demo@business.ca" demo_business)
                    (store init_session) in
     bus_id = w_uuid (store init_session)
     /\ get_business_by_user (w_db w') "demo@business.ca"
        = Some (bus_id, {| b_data := demo_business;
                           b_owner_email := "demo@business.ca" |})
     /\ get_accounts (w_db w') bus_id
        = get_accounts (w_db (store init_session)) bus_id
          ++ default_accounts bus_id
     /\ db_transactions (w_db w')
        = db_transactions (w_db (store init_session)).
Proof.
  split; [reflexivity|].
  exact (business_found_after_create (store init_session)
           "demo@business.ca" demo_business eq_refl).
Defined.

(** X4.  [get_business_by_user] returns the first business of the user: when
    the user has one already and [create_business] is run again under a
    fresh identifier, the lookup still returns the first one. *)
Theorem first_business_wins (w : world) (user_email : string)
    (data : bus_data) (found : uuid * business) :
  get_business_by_user (w_db w) user_email = Some found ->
  ~ In (w_uuid w) (dict_keys (db_businesses (w_db w))) ->
  get_business_by_user
    (w_db (exec (create_business user_email data) w)) user_email
    = Some found.
Proof.
  intros Hsome Hfresh. unfold exec. rewrite exec_create_business.
  unfold get_business_by_user, dict_items in *. cbn [snd w_db db_businesses].
  now apply find_dict_set_fresh.
Qed.

Lemma first_business_wins_witness :
  let w := store scenario_session in
  let found := (0, {| b_data := demo_business;
                      b_owner_email := "demo@business.ca" |}) in
  get_business_by_user (w_db w) "demo@business.ca" = Some found
  /\ ~ In (w_uuid w) (dict_keys (db_businesses (w_db w)))
  /\ get_business_by_user
       (w_db (exec (create_business "demo@business.ca" demo_business) w))
       "demo@business.ca"
     = Some found.
Proof.
  cbv zeta.
  assert (Hfresh : ~ In (w_uuid (store scenario_session))
                        (dict_keys (db_businesses
                                      (w_db (store scenario_session)))))
    by (vm_compute; intuition discriminate).
  split; [reflexivity|]. split; [exact Hfresh|].
  exact (first_business_wins (store scenario_session) "demo@business.ca"
           demo_business _ eq_refl Hfresh).
Defined.

(** ** The shape of every session *)

Lemma save_transaction_adds (business_id : uuid) (accounts : list account)
    (f : tx_form) (now : Z) (m : M unit) :
  save_transaction business_id accounts f now = Ok m ->
  exists data, m = add_transaction business_id now data.
Proof.
  unfold save_transaction.
  destruct (option_item _ (f_account_name f)); [|discriminate]. cbn [rbind].
  destruct (String.eqb (f_tx_type f) "Transfer").
  - destruct (option_item _ (f_to_account_name f)); [|discriminate].
    cbn [rbind]. intros [= <-]. eauto.
  - cbn [rbind]. intros [= <-]. eauto.
Qed.

Lemma onboarding_guard (data : bus_data) :
  existsb (String.eqb (bus_type data))
    ["Sole Proprietorship"; "Corporation"; "Partnership"]
  && existsb (String.eqb (bus_province data)) PROVINCES = true ->
  String.eqb (bus_name data) "" = false ->
  bus_data_ok data.
Proof.
  intros Hg Hname. apply andb_prop in Hg. destruct Hg as [Hty Hprov].
  split; [|split; now apply existsb_eqb_in].
  now apply String.eqb_neq.
Qed.

Lemma get_business_single (users : dict string string) (business_id : uuid)
    (b : business) (accounts : list account)
    (transactions : list transaction) :
  get_business_by_user
    {| db_users := users; db_businesses := [(business_id, b)];
       db_accounts := accounts; db_transactions := transactions |}
    (b_owner_email b)
  = Some (business_id, b).
Proof.
  unfold get_business_by_user, dict_items. cbn. now rewrite String.eqb_refl.
Qed.

Lemma dashboard_shape (email : string) (business_id : uuid)
    (data : bus_data) (more : list account)
    (transactions : list transaction) (e : event) (s s' : session) :
  logged_in s = true -> user s = Some email ->
  w_db (store s)
    = {| db_users := [];
         db_businesses :=
           [ (business_id, {| b_data := data; b_owner_email := email |}) ];
         db_accounts := default_accounts business_id ++ more;
         db_transactions := transactions |} ->
  bus_data_ok data ->
  Forall (fun a => a_business_id a = business_id) more ->
  Forall (fun t => t_business_id t = business_id) transactions ->
  dashboard_view business_id e s = Some s' ->
  session_shape s'.
Proof.
  intros Hl Hu Hdb Hdata Hmore Htx.
  assert (Hsame : session_shape s) by (eapply shape_dashboard; eauto).
  destruct e as [?|?|f now|aname atype abal|]; cbn [dashboard_view];
    try discriminate.
  - destruct (dashboard_kpis _ _); [|now intros [= <-]].
    destruct (tx_form_offered _ f); [|discriminate].
    destruct (save_transaction _ _ f now) as [m|] eqn:Hsave;
      intros [= <-]; [|assumption].
    destruct (save_transaction_adds _ _ _ _ _ Hsave) as [d ->].
    eapply shape_dashboard with (transactions := transactions ++ [_]);
      cbn [with_store logged_in user store]; eauto.
    + rewrite exec_add_transaction. cbn [w_db]. rewrite Hdb. reflexivity.
    + apply Forall_app. split; [assumption|]. now repeat constructor.
  - destruct (dashboard_kpis _ _); [|now intros [= <-]].
    destruct (_ && _); [|discriminate]. intros [= <-].
    eapply shape_dashboard with (more := more ++ [_]);
      cbn [with_store logged_in user store]; eauto.
    + rewrite exec_create_account. cbn [w_db]. rewrite Hdb.
      cbn [db_users db_businesses db_accounts db_transactions].
      now rewrite <- app_assoc.
    + apply Forall_app. split; [assumption|]. now repeat constructor.
  - intros [= <-]. now apply shape_logged_out.
Qed.

Lemma main_shape (e : event) (s s' : session) :
  session_shape s -> main e s = Some s' -> session_shape s'.
Proof.
  intros [Hl Hu Hdb|email Hl Hu Hdb|email bid data more txs Hl Hu Hdb Hd Hm Ht];
    unfold main; rewrite Hl; cbn [negb].
  - destruct e; try discriminate. intros [= <-].
    now apply shape_onboarding with email.
  - rewrite Hu, Hdb. cbn [get_business_by_user empty_db db_businesses
                           dict_items find].
    destruct e as [?|data| | |]; try discriminate. unfold onboarding_view.
    destruct (_ && _) eqn:Hguard; [|discriminate].
    destruct (String.eqb (bus_name data) "") eqn:Hname; intros [= <-].
    + now apply shape_onboarding with email.
    + eapply shape_dashboard
        with (business_id := w_uuid (store s)) (more := [])
             (transactions := []);
        cbn [with_store logged_in user store]; eauto.
      * unfold exec. rewrite exec_create_business. cbn [snd w_db].
        rewrite Hdb. reflexivity.
      * now apply onboarding_guard.
  - rewrite Hu, Hdb.
    rewrite (get_business_single [] bid
               {| b_data := data; b_owner_email := email |}).
    now apply dashboard_shape with email data more txs.
Qed.

Lemma run_shape (es : list event) :
  forall s s' : session,
  session_shape s -> run es s = Some s' -> session_shape s'.
Proof.
  induction es as [|e es IH]; simpl; intros s s' Hs Hrun.
  - now injection Hrun as <-.
  - destruct (main e s) as [s1|] eqn:Hmain; [|discriminate].
    apply (IH s1); [|assumption]. now apply main_shape with e s.
Qed.

Lemma reachable_shape (s : session) : reachable s -> session_shape s.
Proof.
  intros [es Hrun]. apply (run_shape es init_session); [|assumption].
  now apply shape_logged_out.
Qed.

(** X5.  A session that is logged out has no user and an empty store: what
    was entered before "Log Out" is gone. *)
Theorem logged_out_store_empty (s : session) :
  reachable s -> logged_in s = false ->
  user s = None /\ w_db (store s) = empty_db.
Proof.
  intros Hr Hout. destruct (reachable_shape s Hr); [tauto|congruence..].
Qed.

Lemma logged_out_store_empty_witness :
  let s := session_after (scenario_events ++ [LogOut]) in
  reachable s /\ logged_in s = false
  /\ user s = None /\ w_db (store s) = empty_db.
Proof.
  cbv zeta.
  assert (Hr : reachable (session_after (scenario_events ++ [LogOut])))
    by (exists (scenario_events ++ [LogOut]); vm_compute; reflexivity).
  split; [exact Hr|]. split; [reflexivity|].
  exact (logged_out_store_empty _ Hr eq_refl).
Defined.

(** X6.  A store never holds more than one business.  The one it holds is
    owned by the user who is logged in, has a name that is not empty, and an
    entity type and a province among those the onboarding form offers. *)
Theorem at_most_one_business (s : session) :
  reachable s ->
  db_businesses (w_db (store s)) = []
  \/ exists business_id b,
       db_businesses (w_db (store s)) = [(business_id, b)]
       /\ logged_in s = true
       /\ user s = Some (b_owner_email b)
       /\ bus_data_ok (b_data b).
Proof.
  intro Hr.
  destruct (reachable_shape s Hr)
    as [_ _ Hdb|? _ _ Hdb|email bid data more txs Hl Hu Hdb Hd _ _];
    rewrite Hdb; [now left..|].
  right. eexists _, _. cbn. eauto.
Qed.

Lemma at_most_one_business_witness :
  reachable scenario_session
  /\ (db_businesses (w_db (store scenario_session)) = []
      \/ exists business_id b,
           db_businesses (w_db (store scenario_session))
             = [(business_id, b)]
           /\ logged_in scenario_session = true
           /\ user scenario_session = Some (b_owner_email b)
           /\ bus_data_ok (b_data b)).
Proof.
  assert (Hr : reachable scenario_session)
    by (exists scenario_events; vm_compute; reflexivity).
  split; [exact Hr|exact (at_most_one_business scenario_session Hr)].
Defined.

Lemma filter_Forall_all {A : Type} (p : A -> bool) (l : list A) :
  Forall (fun x => p x = true) l -> filter p l = l.
Proof.
  induction 1 as [|a l Ha _ IH]; simpl; [reflexivity|].
  now rewrite Ha, IH.
Qed.

(** X7.  Every account and every transaction of the store belongs to the
    business the store holds: [get_accounts] and [get_transactions] on its
    identifier return the whole collections, and the accounts begin with the
    two seeded ones, "Main Chequing" and "Corporate Card". *)
Theorem business_owns_all_records (s : session) (business_id : uuid)
    (b : business) :
  reachable s ->
  In (business_id, b) (db_businesses (w_db (store s))) ->
  get_accounts (w_db (store s)) business_id = db_accounts (w_db (store s))
  /\ get_transactions (w_db (store s)) business_id
     = db_transactions (w_db (store s))
  /\ exists more,
       db_accounts (w_db (store s)) = default_accounts business_id ++ more.
Proof.
  intros Hr Hin.
  destruct (reachable_shape s Hr)
    as [_ _ Hdb|? _ _ Hdb|email bid data more txs Hl Hu Hdb Hd Hm Ht];
    rewrite Hdb in *; cbn in Hin; try tauto.
  destruct Hin as [Heq|[]]. injection Heq as <- <-.
  unfold get_accounts, get_transactions. cbn [db_accounts db_transactions].
  split; [|split; [|now exists more]].
  - apply filter_Forall_all. apply Forall_app. split.
    + repeat constructor; cbn; apply Nat.eqb_refl.
    + eapply Forall_impl; [|exact Hm]. cbn. intros a ->. apply Nat.eqb_refl.
  - apply filter_Forall_all. eapply Forall_impl; [|exact Ht].
    cbn. intros t ->. apply Nat.eqb_refl.
Qed.

Lemma business_owns_all_records_witness :
  let s := scenario_session in
  let b := {| b_data := demo_business;
              b_owner_email := "demo@business.ca" |} in
  reachable s
  /\ In (0, b) (db_businesses (w_db (store s)))
  /\ get_accounts (w_db (store s)) 0 = db_accounts (w_db (store s))
  /\ get_transactions (w_db (store s)) 0 = db_transactions (w_db (store s))
  /\ exists more, db_accounts (w_db (store s)) = default_accounts 0 ++ more.
Proof.
  cbv zeta.
  assert (Hr : reachable scenario_session)
    by (exists scenario_events; vm_compute; reflexivity).
  assert (Hin : In (0, {| b_data := demo_business;
                          b_owner_email := "demo@business.ca" |})
                   (db_businesses (w_db (store scenario_session))))
    by (left; reflexivity).
  split; [exact Hr|]. split; [exact Hin|].
  exact (business_owns_all_records scenario_session 0 _ Hr Hin).
Defined.

(** ** What an event does to the store *)

(** The store after an event is the store before, or the store before after
    one call of [create_business], [add_transaction] or [create_account],
    or, on "Log Out", the empty store. *)
Lemma main_store_cases (e : event) (s s' : session) :
  main e s = Some s' ->
  store s' = store s
  \/ (exists email data,
        store s' = exec (create_business email data) (store s))
  \/ (exists business_id now data,
        store s' = exec (add_transaction business_id now data) (store s))
  \/ (exists business_id name type_ balance,
        store s'
          = exec (create_account business_id name type_ balance) (store s))
  \/ (e = LogOut
      /\ store s' = {| w_uuid := w_uuid (store s); w_db := empty_db |}).
Proof.
  unfold main. destruct (negb (logged_in s)).
  { destruct e; try discriminate. intros [= <-]. now left. }
  destruct (user s) as [email|]; [|discriminate].
  destruct (get_business_by_user _ _) as [[bid b]|].
  - destruct e as [?|?|f now|aname atype abal|]; cbn [dashboard_view];
      try discriminate.
    + destruct (dashboard_kpis _ _); [|intros [= <-]; now left].
      destruct (tx_form_offered _ f); [|discriminate].
      destruct (save_transaction _ _ f now) as [m|] eqn:Hsave;
        intros [= <-]; [|now left].
      destruct (save_transaction_adds _ _ _ _ _ Hsave) as [d ->].
      right; right; left. now exists bid, now, d.
    + destruct (dashboard_kpis _ _); [|intros [= <-]; now left].
      destruct (_ && _); [|discriminate]. intros [= <-].
      right; right; right; left. now exists bid, aname, atype, abal.
    + intros [= <-]. right; right; right; right. now split.
  - destruct e as [?|data| | |]; try discriminate. unfold onboarding_view.
    destruct (_ && _); [|discriminate].
    destruct (String.eqb _ _); intros [= <-]; [now left|].
    right; left. now exists email, data.
Qed.

Lemma extends_refl {A : Type} (l : list A) : extends l l.
Proof. exists []. now rewrite app_nil_r. Qed.

Lemma extends_app {A : Type} (l more : list A) : extends l (l ++ more).
Proof. now exists more. Qed.

(** X9.  The store is append-only: after any event other than "Log Out"
    the accounts and the transactions that were stored are still there,
    unchanged and in the same order, before whatever the event added. *)
Theorem store_append_only (e : event) (s s' : session) :
  main e s = Some s' -> e <> LogOut ->
  extends (db_accounts (w_db (store s))) (db_accounts (w_db (store s')))
  /\ extends (db_transactions (w_db (store s)))
             (db_transactions (w_db (store s'))).
Proof.
  intros Hmain Hne.
  destruct (main_store_cases e s s' Hmain)
    as [->|[(email & data & ->)|[(bid & now & d & ->)
       |[(bid & n & t & b & ->)|[Hout _]]]]].
  - split; apply extends_refl.
  - unfold exec. rewrite exec_create_business.
    cbn [snd w_db db_accounts db_transactions]. rewrite <- app_assoc.
    split; [apply extends_app|apply extends_refl].
  - rewrite exec_add_transaction. cbn [w_db db_accounts db_transactions].
    split; [apply extends_refl|apply extends_app].
  - rewrite exec_create_account. cbn [w_db db_accounts db_transactions].
    split; [apply extends_app|apply extends_refl].
  - contradiction.
Qed.

Lemma store_append_only_witness :
  let e := CreateAccount "Petty cash" "Cash" 20%float in
  let s := scenario_session in
  let s' := session_after (scenario_events ++ [e]) in
  main e s = Some s' /\ e <> LogOut
  /\ extends (db_accounts (w_db (store s))) (db_accounts (w_db (store s')))
  /\ extends (db_transactions (w_db (store s)))
             (db_transactions (w_db (store s'))).
Proof.
  cbv zeta.
  assert (Hmain : main (CreateAccount "Petty cash" "Cash" 20%float)
                    scenario_session
                  = Some (session_after
                            (scenario_events
                             ++ [CreateAccount "Petty cash" "Cash" 20%float])))
    by (vm_compute; reflexivity).
  assert (Hne : CreateAccount "Petty cash" "Cash" 20%float <> LogOut)
    by discriminate.
  split; [exact Hmain|]. split; [exact Hne|].
  exact (store_append_only _ _ _ Hmain Hne).
Defined.

(** ** Identifiers *)

Lemma fresh_id_ok (l l' : list uuid) (n : nat) :
  NoDup l -> Forall (fun i => i < n) l -> Permutation (n :: l) l' ->
  NoDup l' /\ Forall (fun i => i < S n) l'.
Proof.
  intros Hnd Hlt Hperm. split.
  - eapply Permutation_NoDup; [exact Hperm|]. constructor; [|assumption].
    intro Hin. rewrite Forall_forall in Hlt. specialize (Hlt n Hin). lia.
  - eapply Permutation_Forall; [exact Hperm|]. constructor; [lia|].
    eapply Forall_impl; [|exact Hlt]. cbn. intros; lia.
Qed.

Lemma perm_insert_second (k a t : list uuid) (n : uuid) :
  Permutation (n :: k ++ a ++ t) (k ++ (a ++ [n]) ++ t).
Proof.
  rewrite <- (app_assoc a). cbn [app].
  transitivity (k ++ n :: a ++ t); [apply Permutation_middle|].
  apply Permutation_app_head. apply Permutation_middle.
Qed.

Lemma ids_ok_create_account (business_id : uuid) (name type_ : string)
    (balance : float) (w : world) :
  ids_ok w -> ids_ok (exec (create_account business_id name type_ balance) w).
Proof.
  intros [Hnd Hlt]. rewrite exec_create_account. unfold ids_ok, all_ids in *.
  cbn [w_db w_uuid db_businesses db_accounts db_transactions].
  eapply fresh_id_ok; [exact Hnd|exact Hlt|].
  rewrite map_app. cbn [map a_id]. apply perm_insert_second.
Qed.

Lemma ids_ok_add_transaction (business_id : uuid) (now : Z) (data : tx_data)
    (w : world) :
  ids_ok w -> ids_ok (exec (add_transaction business_id now data) w).
Proof.
  intros [Hnd Hlt]. rewrite exec_add_transaction. unfold ids_ok, all_ids in *.
  cbn [w_db w_uuid db_businesses db_accounts db_transactions].
  eapply fresh_id_ok; [exact Hnd|exact Hlt|].
  rewrite map_app. cbn [map t_id]. rewrite !app_assoc.
  apply Permutation_cons_append.
Qed.

Lemma ids_ok_add_business (b : business) (w : world) :
  ids_ok w ->
  ids_ok {| w_uuid := S (w_uuid w);
            w_db := {| db_users := db_users (w_db w);
                       db_businesses :=
                         dict_set (db_businesses (w_db w)) (w_uuid w) b;
                       db_accounts := db_accounts (w_db w);
                       db_transactions := db_transactions (w_db w) |} |}.
Proof.
  intros [Hnd Hlt]. unfold ids_ok, all_ids in *.
  cbn [w_db w_uuid db_businesses db_accounts db_transactions].
  eapply fresh_id_ok; [exact Hnd|exact Hlt|].
  assert (Hfresh : ~ In (w_uuid w) (dict_keys (db_businesses (w_db w)))).
  { intro Hin. rewrite Forall_forall in Hlt.
    specialize (Hlt (w_uuid w) (in_or_app _ _ _ (or_introl Hin))). lia. }
  rewrite (dict_set_notin _ _ _ Hfresh). unfold dict_keys.
  rewrite map_app. cbn [map fst]. rewrite <- app_assoc. cbn [app].
  now apply Permutation_middle.
Qed.

Lemma ids_ok_create_business (user_email : string) (data : bus_data)
    (w : world) :
  ids_ok w -> ids_ok (exec (create_business user_email data) w).
Proof.
  intro Hok.
  change (exec (create_business user_email data) w)
    with (exec (create_account (w_uuid w) "Corporate Card" "Credit Card" 0)
            (exec (create_account (w_uuid w) "Main Chequing" "Bank" 0)
               {| w_uuid := S (w_uuid w);
                  w_db := {| db_users := db_users (w_db w);
                             db_businesses :=
                               dict_set (db_businesses (w_db w)) (w_uuid w)
                                 {| b_data := data;
                                    b_owner_email := user_email |};
                             db_accounts := db_accounts (w_db w);
                             db_transactions := db_transactions (w_db w) |}
               |})).
  do 2 apply ids_ok_create_account. now apply ids_ok_add_business.
Qed.

Lemma ids_ok_empty (n : nat) : ids_ok {| w_uuid := n; w_db := empty_db |}.
Proof. split; cbn; constructor. Qed.

Lemma run_ids_ok (es : list event) :
  forall s s' : session,
  ids_ok (store s) -> run es s = Some s' -> ids_ok (store s').
Proof.
  induction es as [|e es IH]; simpl; intros s s' Hok Hrun.
  - now injection Hrun as <-.
  - destruct (main e s) as [s1|] eqn:Hmain; [|discriminate].
    apply (IH s1); [|assumption].
    destruct (main_store_cases e s s1 Hmain)
      as [->|[(email & data & ->)|[(bid & now & d & ->)
         |[(bid & n & t & b & ->)|[_ ->]]]]];
      auto using ids_ok_create_business, ids_ok_add_transaction,
                 ids_ok_create_account, ids_ok_empty.
Qed.

(** X10.  Identifiers are unique across the whole store: in every session a
    user can bring about no two records, be they businesses, accounts or
    transactions, share an identifier, and the next identifier drawn is
    none of theirs. *)
Theorem identifiers_unique (s : session) :
  reachable s ->
  NoDup (all_ids (w_db (store s)))
  /\ ~ In (w_uuid (store s)) (all_ids (w_db (store s))).
Proof.
  intros [es Hrun].
  destruct (run_ids_ok es init_session s (ids_ok_empty 0) Hrun) as [Hnd Hlt].
  split; [assumption|]. intro Hin. rewrite Forall_forall in Hlt.
  specialize (Hlt _ Hin). lia.
Qed.

Lemma identifiers_unique_witness :
  reachable scenario_session
  /\ NoDup (all_ids (w_db (store scenario_session)))
  /\ ~ In (w_uuid (store scenario_session))
          (all_ids (w_db (store scenario_session))).
Proof.
  assert (Hr : reachable scenario_session)
    by (exists scenario_events; vm_compute; reflexivity).
  split; [exact Hr|exact (identifiers_unique scenario_session Hr)].
Defined.

(** ** The balance loop: when it raises, and what a balance depends on *)

Section DictKeys.
Context {K V : Type} `{EqKey K}.

Lemma dict_set_keys_self (d : dict K V) (k : K) (v : V) :
  In k (dict_keys (dict_set d k v)).
Proof.
  apply dict_get_keys. exists v. apply dict_get_set_eq.
Qed.

Lemma dict_set_keys_mono (d : dict K V) (k k' : K) (v : V) :
  In k' (dict_keys d) -> In k' (dict_keys (dict_set d k v)).
Proof.
  intro Hin. destruct (key_eqb_spec k k') as [<-|Hne].
  - apply dict_set_keys_self.
  - apply dict_get_keys. rewrite dict_get_set_neq by assumption.
    now apply dict_get_keys.
Qed.

Lemma dict_set_fold_keys (l : list (K * V)) (d : dict K V) (k : K) :
  In k (dict_keys d) \/ In k (map fst l) ->
  In k (dict_keys
          (fold_left (fun d kv => dict_set d (fst kv) (snd kv)) l d)).
Proof.
  revert d. induction l as [|[k0 v0] l IH]; cbn; intros d Hin.
  - tauto.
  - apply IH. destruct Hin as [Hin|[<-|Hin]].
    + left. now apply dict_set_keys_mono.
    + left. apply dict_set_keys_self.
    + now right.
Qed.

(** Every key of a comprehension is a key of the dictionary it builds. *)
Lemma dict_of_keys_complete (l : list (K * V)) (k : K) :
  In k (map fst l) -> In k (dict_keys (dict_of l)).
Proof. intro Hin. apply dict_set_fold_keys. now right. Qed.

End DictKeys.

Lemma dict_item_ok_key (d : dict uuid float) (k : uuid) (b : float) :
  dict_item d k = Ok b -> In k (dict_keys d).
Proof.
  unfold dict_item. destruct (dict_get d k) eqn:Hg; [|discriminate].
  intros _. apply dict_get_keys. eauto.
Qed.

(** A round of the loop that ends without exception read only keys of the
    dictionary. *)
Lemma apply_transaction_refs (acc_balances acc_balances' : dict uuid float)
    (t : transaction) :
  apply_transaction acc_balances t = Ok acc_balances' ->
  refs_ok (dict_keys acc_balances) t.
Proof.
  unfold apply_transaction, refs_ok, py_float. case_type t.
  - destruct (dict_item acc_balances (t_account_id t)) eqn:Hi;
      [|discriminate].
    intros _. split; [intros _; now apply dict_item_ok_key with a|].
    intro Hty. rewrite Hty in e. discriminate.
  - destruct (dict_item acc_balances (t_account_id t)) eqn:Hi;
      [|discriminate].
    intros _. split; [intros _; now apply dict_item_ok_key with a|].
    intro Hty. rewrite Hty in e. discriminate.
  - destruct (t_from_account_id t) as [f|]; cbn [opt_item rbind];
      [|discriminate].
    destruct (dict_item acc_balances f) as [b|] eqn:Hf; cbn [rbind];
      [|discriminate].
    destruct (t_to_account_id t) as [g|]; cbn [opt_item rbind];
      [|discriminate].
    destruct (dict_item (dict_set acc_balances f (b - t_amount t)%float) g)
      as [b'|] eqn:Hg; [|discriminate].
    intros _. split; [intros [Hty|Hty]; congruence|]. intros _.
    exists f, g. repeat split.
    + now apply dict_item_ok_key with b.
    + apply dict_item_ok_key in Hg.
      rewrite dict_keys_set_in in Hg; [assumption|].
      now apply dict_item_ok_key with b.
  - intros _. split; [intros [Hty|Hty]; congruence|congruence].
Qed.

Lemma balance_loop_refs (transactions : list transaction) :
  forall acc_balances acc_balances' : dict uuid float,
  balance_loop acc_balances transactions = Ok acc_balances' ->
  Forall (refs_ok (dict_keys acc_balances)) transactions.
Proof.
  induction transactions as [|t rest IH]; cbn; intros d d' Hloop;
    [constructor|].
  destruct (apply_transaction d t) as [d1|] eqn:H1; cbn in Hloop;
    [|discriminate].
  constructor; [now apply apply_transaction_refs with d1|].
  rewrite <- (apply_transaction_keys _ _ _ H1). now apply IH with d'.
Qed.

(** X11.  For accounts with distinct identifiers the balance loop ends
    without exception when every transaction reads identifiers of the
    accounts only, and raises [KeyError] as soon as one does not: a single
    record that names an unknown account, or a Transfer without its two
    account keys, stops the whole dashboard. *)
Theorem balances_raise_on_unknown_account (accounts : list account)
    (transactions : list transaction) :
  NoDup (map a_id accounts) ->
  (Forall (refs_ok (map a_id accounts)) transactions ->
   exists acc_balances, calc_balances accounts transactions = Ok acc_balances)
  /\ (~ Forall (refs_ok (map a_id accounts)) transactions ->
      calc_balances accounts transactions = Raise KeyError).
Proof.
  intro Hnd. split.
  - intro Hrefs.
    destruct (calc_balances_ok accounts transactions Hnd Hrefs)
      as (d & Hd & _). now exists d.
  - intro Hbad.
    destruct (calc_balances accounts transactions) as [d|[]] eqn:Hc;
      [|reflexivity].
    exfalso. apply Hbad. unfold calc_balances in Hc.
    apply balance_loop_refs in Hc.
    rewrite (initial_balances_nodup _ Hnd) in Hc.
    unfold dict_keys in Hc. now rewrite map_map in Hc.
Qed.

Lemma balances_raise_on_unknown_account_witness :
  let accounts := default_accounts 0 in
  let transactions :=
    db_transactions
      (w_db (exec (add_transaction 0 4%Z
                     {| d_type := "Inflow"; d_amount := 10%float;
                        d_description := "Stray"; d_category := "Sales";
                        d_account_id := 99;
                        d_from_account_id := None;
                        d_to_account_id := None |})
                  (store scenario_session))) in
  NoDup (map a_id accounts)
  /\ (Forall (refs_ok (map a_id accounts)) transactions ->
      exists acc_balances,
        calc_balances accounts transactions = Ok acc_balances)
  /\ (~ Forall (refs_ok (map a_id accounts)) transactions ->
      calc_balances accounts transactions = Raise KeyError).
Proof.
  cbv zeta.
  assert (Hnd : NoDup (map a_id (default_accounts 0)))
    by (cbn; repeat constructor; cbn; intuition discriminate).
  split; [exact Hnd|].
  exact (balances_raise_on_unknown_account (default_accounts 0) _ Hnd).
Defined.

(** X12.  Once the balance loop has ended without exception the rest of the
    KPI computation cannot raise: the liabilities loop finds the balance of
    every account, whatever the accounts and the transactions. *)
Theorem kpis_follow_balances (accounts : list account)
    (transactions : list transaction) (acc_balances : dict uuid float) :
  calc_balances accounts transactions = Ok acc_balances ->
  exists k, dashboard_kpis accounts transactions = Ok k
            /\ k_balances k = acc_balances
            /\ k_liabilities k = spec_liabilities accounts acc_balances.
Proof.
  intro Hc. unfold dashboard_kpis. rewrite Hc. cbn [rbind].
  rewrite liabilities_loop_spec.
  - cbn [rbind]. eexists. split; [reflexivity|]. now split.
  - unfold calc_balances in Hc. apply balance_loop_keys in Hc. rewrite Hc.
    intros k Hk. apply dict_of_keys_complete. now rewrite map_map.
Qed.

Lemma kpis_follow_balances_witness :
  let accounts := get_accounts (w_db (store scenario_session)) 0 in
  let transactions := get_transactions (w_db (store scenario_session)) 0 in
  calc_balances accounts transactions
    = Ok [ (1, 650%float); (2, 150%float) ]
  /\ exists k, dashboard_kpis accounts transactions = Ok k
               /\ k_balances k = [ (1, 650%float); (2, 150%float) ]
               /\ k_liabilities k
                  = spec_liabilities accounts
                      [ (1, 650%float); (2, 150%float) ].
Proof.
  cbv zeta.
  assert (Hc : calc_balances
                 (get_accounts (w_db (store scenario_session)) 0)
                 (get_transactions (w_db (store scenario_session)) 0)
               = Ok [ (1, 650%float); (2, 150%float) ])
    by (vm_compute; reflexivity).
  split; [exact Hc|]. exact (kpis_follow_balances _ _ _ Hc).
Defined.

(** A transaction leaves alone the balance of an account it does not
    move. *)
Lemma effect_untouched (aid : uuid) (b : float) (t : transaction) :
  ~ In aid (touched t) -> spec_signed_effect aid b t = b.
Proof.
  unfold touched, spec_signed_effect. case_type t; cbn; intro Hn.
  - destruct (Nat.eqb_spec (t_account_id t) aid); [tauto|reflexivity].
  - destruct (Nat.eqb_spec (t_account_id t) aid); [tauto|reflexivity].
  - destruct (t_from_account_id t) as [f|], (t_to_account_id t) as [g|];
      cbn in Hn;
      repeat match goal with
             | |- context [Nat.eqb ?x aid] =>
                 destruct (Nat.eqb_spec x aid); [tauto|]
             end; reflexivity.
  - reflexivity.
Qed.

Lemma effects_commute (aid : uuid) (b : float) (t1 t2 : transaction) :
  (forall i, In i (touched t1) -> ~ In i (touched t2)) ->
  spec_signed_effect aid (spec_signed_effect aid b t1) t2
    = spec_signed_effect aid (spec_signed_effect aid b t2) t1.
Proof.
  intro Hdisj. destruct (in_dec Nat.eq_dec aid (touched t1)) as [H1|H1].
  - now rewrite !(effect_untouched aid _ t2) by auto.
  - now rewrite !(effect_untouched aid _ t1) by assumption.
Qed.

Lemma refs_swap (ids : list uuid) (before rest : list transaction)
    (t1 t2 : transaction) :
  Forall (refs_ok ids) (before ++ t1 :: t2 :: rest) ->
  Forall (refs_ok ids) (before ++ t2 :: t1 :: rest).
Proof.
  rewrite !Forall_app. intros [Hb Ht]. split; [assumption|].
  inversion Ht as [|? ? H1 Ht']; subst.
  inversion Ht' as [|? ? H2 Hr]; subst. auto.
Qed.

(** X13.  Two neighbouring transactions that move disjoint accounts can be
    exchanged: the balance loop ends on both orders and gives every account
    the same balance. *)
Theorem independent_transactions_commute (accounts : list account)
    (before rest : list transaction) (t1 t2 : transaction) :
  NoDup (map a_id accounts) ->
  Forall (refs_ok (map a_id accounts)) (before ++ t1 :: t2 :: rest) ->
  (forall i, In i (touched t1) -> ~ In i (touched t2)) ->
  exists d d',
    calc_balances accounts (before ++ t1 :: t2 :: rest) = Ok d
    /\ calc_balances accounts (before ++ t2 :: t1 :: rest) = Ok d'
    /\ dict_keys d = dict_keys d'
    /\ forall acc, In acc accounts ->
         dict_get d (a_id acc) = dict_get d' (a_id acc).
Proof.
  intros Hnd Hrefs Hdisj.
  destruct (calc_balances_ok accounts _ Hnd Hrefs) as (d & Hd & Hk & Hv).
  destruct (calc_balances_ok accounts _ Hnd (refs_swap _ _ _ _ _ Hrefs))
    as (d' & Hd' & Hk' & Hv').
  exists d, d'. repeat split; try assumption; [congruence|].
  intros acc Hin. rewrite (Hv acc Hin), (Hv' acc Hin). f_equal.
  unfold spec_balance. rewrite !fold_left_app. cbn [fold_left].
  now rewrite effects_commute.
Qed.

Lemma independent_transactions_commute_witness :
  let accounts := default_accounts 0 in
  let t1 := {| t_id := 3; t_business_id := 0; t_date := 1%Z;
               t_type := "Inflow"; t_amount := 0.1%float;
               t_description := "Coins"; t_category := "Sales";
               t_account_id := 1;
               t_from_account_id := None; t_to_account_id := None |} in
  let t2 := {| t_id := 4; t_business_id := 0; t_date := 2%Z;
               t_type := "Outflow"; t_amount := 0.2%float;
               t_description := "Fee"; t_category := "Bank Fees";
               t_account_id := 2;
               t_from_account_id := None; t_to_account_id := None |} in
  NoDup (map a_id accounts)
  /\ Forall (refs_ok (map a_id accounts)) ([] ++ t1 :: t2 :: [])
  /\ (forall i, In i (touched t1) -> ~ In i (touched t2))
  /\ exists d d',
       calc_balances accounts ([] ++ t1 :: t2 :: []) = Ok d
       /\ calc_balances accounts ([] ++ t2 :: t1 :: []) = Ok d'
       /\ dict_keys d = dict_keys d'
       /\ forall acc, In acc accounts ->
            dict_get d (a_id acc) = dict_get d' (a_id acc).
Proof.
  cbv zeta.
  assert (Hnd : NoDup (map a_id (default_accounts 0)))
    by (cbn; repeat constructor; cbn; intuition discriminate).
  match goal with
  | |- _ /\ Forall _ ([] ++ ?a :: ?b :: []) /\ _ =>
      assert (Hrefs : Forall (refs_ok (map a_id (default_accounts 0)))
                             ([] ++ a :: b :: []));
      [| assert (Hdisj : forall i, In i (touched a) -> ~ In i (touched b)) ]
  end.
  - repeat constructor; cbn; try tauto; intros; discriminate.
  - cbn. intros i [<-|[]] [Heq|[]]. discriminate.
  - split; [exact Hnd|]. split; [exact Hrefs|]. split; [exact Hdisj|].
    exact (independent_transactions_commute (default_accounts 0) [] []
             _ _ Hnd Hrefs Hdisj).
Defined.

Lemma fold_effects_filter (aid : uuid) (transactions : list transaction) :
  forall b : float,
  fold_left (spec_signed_effect aid) transactions b
    = fold_left (spec_signed_effect aid)
        (filter (fun t => existsb (Nat.eqb aid) (touched t)) transactions) b.
Proof.
  induction transactions as [|t rest IH]; intro b; [reflexivity|].
  cbn [filter fold_left].
  destruct (existsb (Nat.eqb aid) (touched t)) eqn:Hex; cbn [fold_left].
  - apply IH.
  - rewrite effect_untouched; [apply IH|].
    intro Hin. apply not_true_iff_false in Hex. apply Hex.
    apply existsb_exists. exists aid. split; [assumption|apply Nat.eqb_refl].
Qed.

(** X14.  The balance of an account depends only on the transactions that
    move it: the balance loop gives it the opening balance folded with the
    effects of those transactions alone, in their order. *)
Theorem balance_depends_on_own_transactions (accounts : list account)
    (transactions : list transaction) (acc : account) :
  NoDup (map a_id accounts) ->
  Forall (refs_ok (map a_id accounts)) transactions ->
  In acc accounts ->
  exists d,
    calc_balances accounts transactions = Ok d
    /\ dict_get d (a_id acc)
       = Some (spec_balance acc
                 (filter (fun t => existsb (Nat.eqb (a_id acc)) (touched t))
                         transactions)).
Proof.
  intros Hnd Hrefs Hin.
  destruct (calc_balances_ok accounts transactions Hnd Hrefs)
    as (d & Hd & _ & Hv).
  exists d. split; [assumption|]. rewrite (Hv acc Hin). f_equal.
  apply fold_effects_filter.
Qed.

Lemma balance_depends_on_own_transactions_witness :
  let accounts := get_accounts (w_db (store scenario_session)) 0 in
  let transactions := get_transactions (w_db (store scenario_session)) 0 in
  let card := {| a_id := 2; a_business_id := 0; a_name := "Corporate Card";
                 a_type := "Credit Card"; a_initial_balance := 0%float;
                 a_is_active := true |} in
  NoDup (map a_id accounts)
  /\ Forall (refs_ok (map a_id accounts)) transactions
  /\ In card accounts
  /\ exists d,
       calc_balances accounts transactions = Ok d
       /\ dict_get d (a_id card)
          = Some (spec_balance card
                    (filter (fun t => existsb (Nat.eqb (a_id card))
                                              (touched t))
                            transactions)).
Proof.
  cbv zeta.
  assert (Hr : reachable scenario_session)
    by (exists scenario_events; vm_compute; reflexivity).
  pose proof (get_accounts_nodup _ 0 (reachable_ok _ Hr)) as Hnd.
  pose proof (get_transactions_refs _ 0 (reachable_ok _ Hr)) as Hrefs.
  match goal with
  | |- _ /\ _ /\ In ?c ?l /\ _ =>
      assert (Hin : In c l) by (right; left; reflexivity)
  end.
  split; [exact Hnd|]. split; [exact Hrefs|]. split; [exact Hin|].
  exact (balance_depends_on_own_transactions _ _ _ Hnd Hrefs Hin).
Defined.

(** ** The transaction form in a running session *)

Lemma store_kpis_ok (w : world) (business_id : uuid) :
  store_ok w ->
  exists k, dashboard_kpis (get_accounts (w_db w) business_id)
                           (get_transactions (w_db w) business_id) = Ok k.
Proof.
  intro Hok.
  destruct (calc_balances_ok _ _ (get_accounts_nodup _ business_id Hok)
              (get_transactions_refs _ business_id Hok))
    as (d & Hd & Hk & _).
  unfold dashboard_kpis. rewrite Hd. cbn [rbind].
  rewrite liabilities_loop_spec by (rewrite Hk; apply incl_refl).
  cbn [rbind]. eauto.
Qed.

Lemma acc_options_keys (accounts : list account) (n : string) :
  In n (map a_name accounts) -> In n (dict_keys (acc_options_of accounts)).
Proof.
  intro Hin. apply dict_of_keys_complete. now rewrite map_map.
Qed.

Lemma option_item_selected (acc_options : dict string uuid)
    (choices : list string) (name : option string) :
  incl choices (dict_keys acc_options) -> choices <> [] ->
  selectbox choices name = true ->
  exists aid, option_item acc_options name = Ok aid.
Proof.
  intros Hincl Hne Hsel. destruct name as [n|]; cbn in *.
  - apply existsb_eqb_in, Hincl, dict_get_keys in Hsel.
    destruct Hsel as [aid Hg]. exists aid. now apply dict_item_get.
  - destruct choices; [contradiction|discriminate].
Qed.

(** With two accounts of different names in the list, a form the page
    offers is saved without [KeyError]. *)
Lemma save_transaction_no_raise (business_id : uuid)
    (accounts : list account) (f : tx_form) (now : Z) (n1 n2 : string) :
  In n1 (map a_name accounts) -> In n2 (map a_name accounts) -> n1 <> n2 ->
  tx_form_offered accounts f = true ->
  exists m, save_transaction business_id accounts f now = Ok m.
Proof.
  intros H1 H2 Hne Hoff. apply acc_options_keys in H1, H2.
  unfold tx_form_offered in Hoff.
  apply andb_prop in Hoff. destruct Hoff as [Hoff Hto].
  apply andb_prop in Hoff. destruct Hoff as [_ Hacc].
  destruct (option_item_selected (acc_options_of accounts)
              (dict_keys (acc_options_of accounts)) (f_account_name f))
    as [aid Haid]; [apply incl_refl| |assumption|].
  { intro Hnil. rewrite Hnil in H1. contradiction. }
  unfold save_transaction. rewrite Haid. cbn [rbind].
  destruct (String.eqb (f_tx_type f) "Transfer"); cbn [rbind]; [|eauto].
  destruct (option_item_selected (acc_options_of accounts)
              (to_account_choices (acc_options_of accounts)
                                  (f_account_name f))
              (f_to_account_name f)) as [tid Htid]; [| |assumption|].
  - intros n Hn. apply filter_In in Hn. tauto.
  - assert (Hsome : exists n,
              In n (to_account_choices (acc_options_of accounts)
                                       (f_account_name f))).
    { unfold to_account_choices.
      destruct (f_account_name f) as [n|].
      - destruct (String.eqb_spec n1 n) as [->|Hn1].
        + exists n2. apply filter_In. split; [assumption|]. cbn.
          apply negb_true_iff, String.eqb_neq. congruence.
        + exists n1. apply filter_In. split; [assumption|]. cbn.
          now apply negb_true_iff, String.eqb_neq.
      - exists n1. apply filter_In. now split. }
    destruct Hsome as [n Hn]. intro Hnil. rewrite Hnil in Hn. contradiction.
  - rewrite Htid. cbn [rbind]. eauto.
Qed.

Lemma option_item_selected_id (accounts : list account)
    (name : option string) (aid : uuid) :
  option_item (acc_options_of accounts) name = Ok aid ->
  selected_id accounts name = Some aid.
Proof.
  destruct name as [n|]; cbn; [|discriminate]. unfold dict_item.
  destruct (dict_get (acc_options_of accounts) n); [|discriminate].
  now intros [= ->].
Qed.

(** A saved form hands [add_transaction] the dictionary [form_record], on
    the identifier [acc_options] gives for the selected account. *)
Lemma save_transaction_exact (business_id : uuid) (accounts : list account)
    (f : tx_form) (now : Z) (m : M unit) :
  save_transaction business_id accounts f now = Ok m ->
  exists aid,
    selected_id accounts (f_account_name f) = Some aid
    /\ m = add_transaction business_id now (form_record accounts f aid)
    /\ (f_tx_type f = "Transfer" ->
        exists dst, selected_id accounts (f_to_account_name f) = Some dst).
Proof.
  unfold save_transaction, form_record.
  destruct (option_item _ (f_account_name f)) as [aid|] eqn:Ha;
    [|discriminate].
  apply option_item_selected_id in Ha. cbn [rbind].
  destruct (String.eqb_spec (f_tx_type f) "Transfer") as [Hty|Hty].
  - destruct (option_item _ (f_to_account_name f)) as [dst|] eqn:Hd;
      [|discriminate].
    apply option_item_selected_id in Hd. cbn [rbind]. intros [= <-].
    exists aid. rewrite Hd. cbn. repeat split; eauto.
  - cbn [rbind]. intros [= <-]. exists aid. cbn. repeat split; tauto.
Qed.

Lemma dashboard_business (s : session) (business_id : uuid) (b : business) :
  reachable s ->
  In (business_id, b) (db_businesses (w_db (store s))) ->
  logged_in s = true
  /\ (exists email, user s = Some email
        /\ get_business_by_user (w_db (store s)) email
           = Some (business_id, b))
  /\ get_accounts (w_db (store s)) business_id = db_accounts (w_db (store s))
  /\ get_transactions (w_db (store s)) business_id
     = db_transactions (w_db (store s))
  /\ In "Main Chequing"
        (map a_name (get_accounts (w_db (store s)) business_id))
  /\ In "Corporate Card"
        (map a_name (get_accounts (w_db (store s)) business_id)).
Proof.
  intros Hr Hin.
  destruct (reachable_shape s Hr)
    as [_ _ Hdb|? _ _ Hdb|email bid data more txs Hl Hu Hdb Hd Hm Ht];
    try (rewrite Hdb in Hin; cbn in Hin; tauto).
  assert (Hbid : business_id = bid
                 /\ b = {| b_data := data; b_owner_email := email |}).
  { rewrite Hdb in Hin. cbn in Hin. destruct Hin as [Heq|[]].
    injection Heq as <- <-. now split. }
  destruct Hbid as [-> ->].
  assert (Hacc : get_accounts (w_db (store s)) bid
                 = db_accounts (w_db (store s))).
  { unfold get_accounts. rewrite Hdb. cbn [db_accounts].
    apply filter_Forall_all. apply Forall_app. split.
    - repeat constructor; cbn; apply Nat.eqb_refl.
    - eapply Forall_impl; [|exact Hm]. cbn. intros a ->.
      apply Nat.eqb_refl. }
  split; [assumption|]. split.
  { exists email. split; [assumption|]. rewrite Hdb.
    apply (get_business_single [] bid
             {| b_data := data; b_owner_email := email |}). }
  split; [assumption|]. split.
  { unfold get_transactions. rewrite Hdb. cbn [db_transactions].
    apply filter_Forall_all. eapply Forall_impl; [|exact Ht].
    cbn. intros t ->. apply Nat.eqb_refl. }
  rewrite Hacc, Hdb. cbn. tauto.
Qed.

(** In a session with a business an offered form is saved, and the session
    that results is the one [add_transaction] leaves on [form_record]. *)
Lemma save_form_exact (s : session) (business_id : uuid) (b : business)
    (f : tx_form) (now : Z) :
  reachable s ->
  In (business_id, b) (db_businesses (w_db (store s))) ->
  tx_form_offered (get_accounts (w_db (store s)) business_id) f = true ->
  exists aid,
    selected_id (get_accounts (w_db (store s)) business_id)
                (f_account_name f) = Some aid
    /\ main (SaveTransaction f now) s
       = Some (with_store s
                 (exec (add_transaction business_id now
                          (form_record
                             (get_accounts (w_db (store s)) business_id)
                             f aid))
                       (store s)))
    /\ (f_tx_type f = "Transfer" ->
        exists dst,
          selected_id (get_accounts (w_db (store s)) business_id)
                      (f_to_account_name f) = Some dst
          /\ dst <> aid).
Proof.
  intros Hr Hin Hoff. pose proof (reachable_ok s Hr) as Hok.
  destruct (dashboard_business s business_id b Hr Hin)
    as (Hl & (email & Hu & Hbiz) & _ & _ & Hmain & Hcard).
  destruct (save_transaction_no_raise business_id _ f now _ _ Hmain Hcard)
    as [m Hsave]; [discriminate|assumption|].
  destruct (save_transaction_exact _ _ _ _ _ Hsave)
    as (aid & Hsel & Hm & Hto).
  destruct (save_transaction_data _ _ _ _ _
              (get_accounts_nodup _ business_id Hok) Hoff Hsave)
    as (d & Hm' & Hdata).
  destruct (store_kpis_ok _ business_id Hok) as [k Hk].
  exists aid. split; [assumption|]. split.
  - unfold main. rewrite Hl. cbn [negb]. rewrite Hu, Hbiz.
    cbn [dashboard_view]. now rewrite Hk, Hoff, Hsave, Hm.
  - intro Hty. destruct (Hto Hty) as [dst Hdst]. exists dst.
    split; [assumption|].
    assert (Hd : d = form_record
                       (get_accounts (w_db (store s)) business_id) f aid).
    { rewrite Hm in Hm'.
      assert (Hex := f_equal (fun m0 => exec m0 (store s)) Hm').
      cbn beta in Hex. rewrite !exec_add_transaction in Hex.
      injection Hex as Hex. apply app_inj_tail in Hex.
      destruct Hex as [_ Hex]. destruct d. cbn in Hex.
      now injection Hex as <- <- <- <- <- <- <-. }
    destruct Hdata as (Hdt & _ & _ & _ & _ & Htr).
    rewrite Hd in Hdt, Htr. cbn [form_record d_type] in Hdt.
    destruct (Htr Hty) as (_ & src & dst' & Hsrc & Hdst' & Hne & _).
    unfold form_record in Hsrc, Hdst'.
    cbn [d_from_account_id d_to_account_id] in Hsrc, Hdst'.
    apply String.eqb_eq in Hty. rewrite Hty in Hsrc, Hdst'.
    rewrite Hdst in Hdst'. congruence.
Qed.

(** X8.  In a session with a business, a transaction form the page offers
    is always saved, without [KeyError]: the ledger gains exactly one
    record, at its end, and that record is the one of the form.  It is
    booked on the account of the business that the account selector names;
    its kind, amount and description are those of the form; its category is
    that of the form, or "Transfer" for a Transfer; a Transfer carries the
    selected account as from-account and, as to-account, the account the
    second selector names, which is another account.  The accounts are as
    before. *)
Theorem offered_form_is_saved (s : session) (business_id : uuid)
    (b : business) (f : tx_form) (now : Z) :
  reachable s ->
  In (business_id, b) (db_businesses (w_db (store s))) ->
  tx_form_offered (get_accounts (w_db (store s)) business_id) f = true ->
  let accounts := get_accounts (w_db (store s)) business_id in
  exists acc s',
    In acc accounts
    /\ f_account_name f = Some (a_name acc)
    /\ selected_id accounts (f_account_name f) = Some (a_id acc)
    /\ main (SaveTransaction f now) s = Some s'
    /\ db_transactions (w_db (store s'))
       = db_transactions (w_db (store s))
         ++ [ tx_record (w_uuid (store s)) business_id now
                        (form_record accounts f (a_id acc)) ]
    /\ db_accounts (w_db (store s')) = db_accounts (w_db (store s))
    /\ (f_tx_type f = "Transfer" ->
        exists dst,
          In dst accounts
          /\ f_to_account_name f = Some (a_name dst)
          /\ selected_id accounts (f_to_account_name f) = Some (a_id dst)
          /\ a_id dst <> a_id acc).
Proof.
  intros Hr Hin Hoff. cbv zeta.
  destruct (save_form_exact s business_id b f now Hr Hin Hoff)
    as (aid & Hsel & Hmain & Hto).
  assert (Hnamed : forall name i,
            selected_id (get_accounts (w_db (store s)) business_id) name
              = Some i ->
            exists a, In a (get_accounts (w_db (store s)) business_id)
                      /\ name = Some (a_name a) /\ a_id a = i).
  { intros [n|] i Hi; cbn in Hi; [|discriminate].
    destruct (acc_options_account _ _ _ Hi) as (a & Ha & Hn & Hid).
    exists a. subst. auto. }
  destruct (Hnamed _ _ Hsel) as (acc & Hacc & Hname & Hid). subst aid.
  exists acc. eexists. split; [assumption|]. split; [assumption|].
  split; [assumption|]. split; [exact Hmain|].
  cbn [with_store store]. rewrite exec_add_transaction.
  cbn [w_db db_transactions db_accounts]. split; [reflexivity|].
  split; [reflexivity|].
  intro Hty. destruct (Hto Hty) as (i & Hi & Hne).
  destruct (Hnamed _ _ Hi) as (dst & Hdst & Hdname & Hdid). subst i.
  now exists dst.
Qed.

Lemma offered_form_is_saved_witness :
  let s := scenario_session in
  let b := {| b_data := demo_business;
              b_owner_email := "demo@business.ca" |} in
  let f := {| f_tx_type := "Transfer"; f_amount := 0.01%float;
              f_desc := ""; f_category := "Rent";
              f_account_name := Some "Corporate Card";
              f_to_account_name := Some "Main Chequing" |} in
  let accounts := get_accounts (w_db (store s)) 0 in
  reachable s
  /\ In (0, b) (db_businesses (w_db (store s)))
  /\ tx_form_offered accounts f = true
  /\ exists acc s',
       In acc accounts
       /\ f_account_name f = Some (a_name acc)
       /\ selected_id accounts (f_account_name f) = Some (a_id acc)
       /\ main (SaveTransaction f 9%Z) s = Some s'
       /\ db_transactions (w_db (store s'))
          = db_transactions (w_db (store s))
            ++ [ tx_record (w_uuid (store s)) 0 9%Z
                           (form_record accounts f (a_id acc)) ]
       /\ db_accounts (w_db (store s')) = db_accounts (w_db (store s))
       /\ (f_tx_type f = "Transfer" ->
           exists dst,
             In dst accounts
             /\ f_to_account_name f = Some (a_name dst)
             /\ selected_id accounts (f_to_account_name f)
                = Some (a_id dst)
             /\ a_id dst <> a_id acc).
Proof.
  cbv zeta.
  assert (Hr : reachable scenario_session)
    by (exists scenario_events; vm_compute; reflexivity).
  assert (Hin : In (0, {| b_data := demo_business;
                          b_owner_email := "demo@business.ca" |})
                   (db_businesses (w_db (store scenario_session))))
    by (left; reflexivity).
  split; [exact Hr|]. split; [exact Hin|]. split; [vm_compute; reflexivity|].
  refine (offered_form_is_saved scenario_session 0 _ _ 9%Z Hr Hin _).
  vm_compute; reflexivity.
Defined.

(** ** Stored transactions *)

Lemma save_transaction_form_data (business_id : uuid)
    (accounts : list account) (f : tx_form) (now : Z) (m : M unit) :
  save_transaction business_id accounts f now = Ok m ->
  exists data, m = add_transaction business_id now data /\ form_data f data.
Proof.
  unfold save_transaction.
  destruct (option_item _ (f_account_name f)) as [aid|]; [|discriminate].
  cbn [rbind].
  destruct (String.eqb_spec (f_tx_type f) "Transfer") as [Hty|Hty].
  - destruct (option_item _ (f_to_account_name f)); [|discriminate].
    cbn [rbind]. intros [= <-]. eexists. split; [reflexivity|].
    unfold form_data. cbn. repeat split; try tauto. discriminate.
  - cbn [rbind]. intros [= <-]. eexists. split; [reflexivity|].
    unfold form_data. cbn. repeat split; tauto.
Qed.

(** The transactions after an event: those before, none at all, or those
    before followed by the record of an offered form. *)
Lemma main_transactions_cases (e : event) (s s' : session) :
  main e s = Some s' ->
  db_transactions (w_db (store s')) = db_transactions (w_db (store s))
  \/ db_transactions (w_db (store s')) = []
  \/ exists business_id f now data,
       In (f_tx_type f) ["Outflow"; "Inflow"; "Transfer"]
       /\ In (f_category f) CATEGORIES
       /\ form_data f data
       /\ store s' = exec (add_transaction business_id now data) (store s).
Proof.
  unfold main. destruct (negb (logged_in s)).
  { destruct e; try discriminate. intros [= <-]. now left. }
  destruct (user s) as [email|]; [|discriminate].
  destruct (get_business_by_user _ _) as [[bid b]|].
  - destruct e as [?|?|f now|aname atype abal|]; cbn [dashboard_view];
      try discriminate.
    + destruct (dashboard_kpis _ _); [|intros [= <-]; now left].
      destruct (tx_form_offered _ f) eqn:Hoff; [|discriminate].
      destruct (save_transaction _ _ f now) as [m|] eqn:Hsave;
        intros [= <-]; [|now left].
      destruct (save_transaction_form_data _ _ _ _ _ Hsave) as (d & -> & Hd).
      destruct (tx_form_offered_inv _ _ Hoff) as (_ & Hty & Hcat).
      right; right. now exists bid, f, now, d.
    + destruct (dashboard_kpis _ _); [|intros [= <-]; now left].
      destruct (_ && _); [|discriminate]. intros [= <-]. now left.
    + intros [= <-]. right; now left.
  - destruct e as [?|data| | |]; try discriminate. unfold onboarding_view.
    destruct (_ && _); [|discriminate].
    destruct (String.eqb _ _); intros [= <-]; now left.
Qed.

Lemma run_record_ok (es : list event) :
  forall s s' : session,
  Forall record_ok (db_transactions (w_db (store s))) ->
  run es s = Some s' ->
  Forall record_ok (db_transactions (w_db (store s'))).
Proof.
  induction es as [|e es IH]; simpl; intros s s' Hok Hrun.
  - now injection Hrun as <-.
  - destruct (main e s) as [s1|] eqn:Hmain; [|discriminate].
    apply (IH s1); [|assumption].
    destruct (main_transactions_cases e s s1 Hmain)
      as [->|[->|(bid & f & now & d & Hty & Hcat & Hd & ->)]];
      [assumption|constructor|].
    rewrite exec_add_transaction. cbn [w_db db_transactions].
    apply Forall_app. split; [assumption|]. constructor; [|constructor].
    destruct Hd as (Hdt & _ & _ & Htr & Hnt).
    unfold record_ok. cbn. rewrite Hdt. split; [assumption|]. split.
    + intro Heq. destruct (Htr Heq) as (_ & Hfrom & Hto). now split.
    + intro Hne. destruct (Hnt Hne) as (-> & Hfrom & Hto). now repeat split.
Qed.

(** X15.  In every session a user can bring about, a stored transaction has
    one of the three kinds; an Inflow or an Outflow carries a category of
    [CATEGORIES] and no transfer keys; a Transfer carries both transfer keys
    and its from-account is the account under [account_id]. *)
Theorem stored_records_well_keyed (s : session) :
  reachable s -> Forall record_ok (db_transactions (w_db (store s))).
Proof.
  intros [es Hrun]. apply (run_record_ok es init_session); [|assumption].
  constructor.
Qed.

Lemma stored_records_well_keyed_witness :
  reachable scenario_session
  /\ Forall record_ok (db_transactions (w_db (store scenario_session))).
Proof.
  assert (Hr : reachable scenario_session)
    by (exists scenario_events; vm_compute; reflexivity).
  split; [exact Hr|exact (stored_records_well_keyed scenario_session Hr)].
Defined.

Lemma account_of_ids (accounts : list account) (business_id aid : uuid) :
  In aid (map a_id (filter (fun a => Nat.eqb (a_business_id a) business_id)
                           accounts)) ->
  account_of accounts business_id aid.
Proof.
  intro Hin. apply in_map_iff in Hin. destruct Hin as (acc & Hid & Hin).
  apply filter_In in Hin. destruct Hin as [Hin Hb].
  apply Nat.eqb_eq in Hb. now exists acc.
Qed.

(** X16.  Referential integrity: in every session a user can bring about,
    the account a stored transaction names, and the two accounts a Transfer
    names, are accounts of the store that belong to the business of the
    transaction. *)
Theorem transactions_name_own_accounts (s : session) :
  reachable s ->
  forall t, In t (db_transactions (w_db (store s))) ->
  account_of (db_accounts (w_db (store s))) (t_business_id t)
             (t_account_id t)
  /\ (t_type t = "Transfer" ->
      exists src dst,
        t_from_account_id t = Some src /\ t_to_account_id t = Some dst
        /\ account_of (db_accounts (w_db (store s))) (t_business_id t) src
        /\ account_of (db_accounts (w_db (store s))) (t_business_id t) dst).
Proof.
  intros Hr t Hin. destruct (reachable_ok s Hr) as [_ _ _ Ht].
  rewrite Forall_forall in Ht. destruct (Ht t Hin) as (_ & _ & Hacc & Htr).
  split; [now apply account_of_ids|].
  intro Hty. destruct (Htr Hty) as (_ & src & dst & Hf & Hg & _ & Hs & Hd).
  exists src, dst. auto using account_of_ids.
Qed.

Lemma transactions_name_own_accounts_witness :
  reachable scenario_session
  /\ forall t, In t (db_transactions (w_db (store scenario_session))) ->
     account_of (db_accounts (w_db (store scenario_session)))
                (t_business_id t) (t_account_id t)
     /\ (t_type t = "Transfer" ->
         exists src dst,
           t_from_account_id t = Some src /\ t_to_account_id t = Some dst
           /\ account_of (db_accounts (w_db (store scenario_session)))
                         (t_business_id t) src
           /\ account_of (db_accounts (w_db (store scenario_session)))
                         (t_business_id t) dst).
Proof.
  assert (Hr : reachable scenario_session)
    by (exists scenario_events; vm_compute; reflexivity).
  split; [exact Hr|].
  exact (transactions_name_own_accounts scenario_session Hr).
Defined.

(** ** The tables of the dashboard *)

Lemma acc_map_name (accounts : list account) (acc : account) :
  NoDup (map a_id accounts) -> In acc accounts ->
  dict_get (acc_map_of accounts) (a_id acc) = Some (a_name acc).
Proof.
  intros Hnd Hin. unfold acc_map_of.
  rewrite dict_of_nodup by now rewrite map_map.
  apply dict_get_nodup.
  - unfold dict_keys. now rewrite map_map.
  - now apply (in_map (fun a => (a_id a, a_name a))).
Qed.

(** X17.  In every session a user can bring about, the Account column of
    the transaction tables has no missing value: the cell of each row is
    the name of the account of the business whose identifier the row
    carries. *)
Theorem account_column_named (s : session) (business_id : uuid) :
  reachable s ->
  Forall2 (fun t cell =>
             exists acc,
               In acc (get_accounts (w_db (store s)) business_id)
               /\ a_id acc = t_account_id t
               /\ cell = Some (a_name acc))
          (get_transactions (w_db (store s)) business_id)
          (account_column (get_accounts (w_db (store s)) business_id)
                          (get_transactions (w_db (store s)) business_id)).
Proof.
  intro Hr. pose proof (reachable_ok s Hr) as Hok.
  pose proof (get_accounts_nodup _ business_id Hok) as Hnd.
  pose proof (get_transactions_refs _ business_id Hok) as Hrefs.
  assert (Hshape : Forall record_ok
                     (get_transactions (w_db (store s)) business_id)).
  { apply Forall_forall. intros t Hin. apply filter_In in Hin.
    destruct Hr as [es Hrun].
    pose proof (run_record_ok es init_session s (Forall_nil _) Hrun) as Hall.
    rewrite Forall_forall in Hall. apply Hall. tauto. }
  unfold account_column.
  induction (get_transactions (w_db (store s)) business_id) as [|t rest IH];
    cbn [map]; constructor.
  - inversion Hrefs as [|? ? [Hsingle Hpair] _]; subst.
    inversion Hshape as [|? ? (Hty & Htr & _) _]; subst.
    assert (Hin : In (t_account_id t)
                     (map a_id (get_accounts (w_db (store s)) business_id))).
    { cbn in Hty. destruct Hty as [Hty|[Hty|[Hty|[]]]]; symmetry in Hty.
      - apply Hsingle. now right.
      - apply Hsingle. now left.
      - destruct (Hpair Hty) as (src & dst & Hf & _ & Hsrc & _).
        destruct (Htr Hty) as [Hfrom _]. congruence. }
    apply in_map_iff in Hin. destruct Hin as (acc & Hid & Hin).
    exists acc. repeat split; [assumption..|].
    rewrite <- Hid. now rewrite acc_map_name.
  - apply IH; [now inversion Hrefs|now inversion Hshape].
Qed.

Lemma account_column_named_witness :
  reachable scenario_session
  /\ Forall2 (fun t cell =>
                exists acc,
                  In acc (get_accounts (w_db (store scenario_session)) 0)
                  /\ a_id acc = t_account_id t
                  /\ cell = Some (a_name acc))
             (get_transactions (w_db (store scenario_session)) 0)
             (account_column
                (get_accounts (w_db (store scenario_session)) 0)
                (get_transactions (w_db (store scenario_session)) 0)).
Proof.
  assert (Hr : reachable scenario_session)
    by (exists scenario_events; vm_compute; reflexivity).
  split; [exact Hr|exact (account_column_named scenario_session 0 Hr)].
Defined.

Lemma enumerate_from_in {A : Type} (l : list A) :
  forall (idx i : nat) (x : A),
  In (i, x) (enumerate_from idx l) -> In x l.
Proof.
  induction l as [|a l IH]; cbn; intros idx i x; [tauto|].
  intros [[= _ ->]|Hin]; [now left|]. right. now apply IH with (S idx) i.
Qed.

(** X18.  In every session a user can bring about, the Accounts tab shows
    one card per account of the business, in the order of the accounts and
    in the columns 0, 1, 2, 0, ...; the figure of a card is the balance the
    loop computed for the account, never the default 0.0 of [get], and it is
    red when that balance is negative. *)
Theorem grid_shows_computed_balances (s : session) (business_id : uuid) :
  reachable s ->
  let accounts := get_accounts (w_db (store s)) business_id in
  let transactions := get_transactions (w_db (store s)) business_id in
  exists acc_balances,
    calc_balances accounts transactions = Ok acc_balances
    /\ accounts_grid accounts acc_balances
       = map (fun ia =>
                {| c_column := fst ia mod 3;
                   c_type := a_type (snd ia);
                   c_name := a_name (snd ia);
                   c_balance := spec_balance (snd ia) transactions;
                   c_red := (spec_balance (snd ia) transactions <? 0)%float
                |})
             (enumerate_from 0 accounts).
Proof.
  intro Hr. cbv zeta. pose proof (reachable_ok s Hr) as Hok.
  destruct (calc_balances_ok _ _ (get_accounts_nodup _ business_id Hok)
              (get_transactions_refs _ business_id Hok))
    as (d & Hd & _ & Hv).
  exists d. split; [assumption|]. unfold accounts_grid.
  apply map_ext_in. intros [i acc] Hin. apply enumerate_from_in in Hin.
  cbn [fst snd]. unfold balance_of. now rewrite (Hv acc Hin).
Qed.

Lemma grid_shows_computed_balances_witness :
  reachable scenario_session
  /\ let accounts := get_accounts (w_db (store scenario_session)) 0 in
     let transactions :=
       get_transactions (w_db (store scenario_session)) 0 in
     exists acc_balances,
       calc_balances accounts transactions = Ok acc_balances
       /\ accounts_grid accounts acc_balances
          = map (fun ia =>
                   {| c_column := fst ia mod 3;
                      c_type := a_type (snd ia);
                      c_name := a_name (snd ia);
                      c_balance := spec_balance (snd ia) transactions;
                      c_red :=
                        (spec_balance (snd ia) transactions <? 0)%float |})
                (enumerate_from 0 accounts).
Proof.
  assert (Hr : reachable scenario_session)
    by (exists scenario_events; vm_compute; reflexivity).
  split; [exact Hr|].
  exact (grid_shows_computed_balances scenario_session 0 Hr).
Defined.

(** ** The search box ignores the case of the search text *)

Lemma lower_char_idem (c : ascii) :
  Re.lower_char (Re.lower_char c) = Re.lower_char c.
Proof. destruct c as [[] [] [] [] [] [] [] []]; reflexivity. Qed.

Lemma lower_char_special (c : ascii) :
  Re.is_special (Re.lower_char c) = Re.is_special c.
Proof. destruct c as [[] [] [] [] [] [] [] []]; reflexivity. Qed.

Lemma lower_char_dot (c : ascii) :
  Ascii.eqb (Re.lower_char c) "."%char = Ascii.eqb c "."%char.
Proof. destruct c as [[] [] [] [] [] [] [] []]; reflexivity. Qed.

Lemma compile_lower (p : string) :
  Re.compile (lower p) = option_map (map lower_atom) (Re.compile p).
Proof.
  induction p as [|c p IH]; [reflexivity|].
  rewrite lower_String. cbn [Re.compile].
  rewrite lower_char_dot, lower_char_special, IH.
  destruct (Ascii.eqb c "."%char); [now destruct (Re.compile p)|].
  destruct (Re.is_special c); [reflexivity|]. now destruct (Re.compile p).
Qed.

Lemma match_here_lower (r : Re.regex) :
  forall s : string,
  Re.match_here (map lower_atom r) s = Re.match_here r s.
Proof.
  induction r as [|a r IH]; intro s; [reflexivity|].
  destruct s as [|c s]; [reflexivity|]. cbn [map Re.match_here].
  rewrite IH. f_equal. destruct a; cbn; [|reflexivity].
  now rewrite lower_char_idem.
Qed.

Lemma search_lower (r : Re.regex) (s : string) :
  Re.search (map lower_atom r) s = Re.search r s.
Proof.
  induction s as [|c s IH]; cbn [Re.search]; rewrite match_here_lower;
    [reflexivity|now rewrite IH].
Qed.

Lemma ledger_table_lower (transactions : list transaction) (p : string) :
  ledger_table transactions (lower p) = ledger_table transactions p.
Proof.
  unfold ledger_table. destruct transactions as [|t rest]; [reflexivity|].
  assert (Hempty : String.eqb (lower p) "" = String.eqb p "")
    by now destruct p.
  rewrite Hempty. destruct (String.eqb p ""); [reflexivity|].
  unfold str_contains. rewrite compile_lower.
  destruct (Re.compile p) as [r|]; [|reflexivity]. cbn [option_map].
  f_equal. apply filter_ext. intro x. now rewrite !search_lower.
Qed.

(** X19.  Two search texts made of ordinary characters and dots that
    differ by the case of their letters only give the same table. *)
Theorem search_ignores_case (transactions : list transaction)
    (p q : string) :
  lower p = lower q ->
  ledger_table transactions p = ledger_table transactions q.
Proof.
  intro Heq.
  now rewrite <- (ledger_table_lower transactions p), Heq,
              ledger_table_lower.
Qed.

Lemma search_ignores_case_witness :
  lower "TIM hortons" = lower "Tim Hortons"
  /\ ledger_table (db_transactions (w_db (store scenario_session)))
                  "TIM hortons"
     = ledger_table (db_transactions (w_db (store scenario_session)))
                    "Tim Hortons".
Proof.
  split; [reflexivity|].
  exact (search_ignores_case _ "TIM hortons" "Tim Hortons" eq_refl).
Defined.

(** * The claims on balances and KPIs *)

(** ** Sequences of calls *)

Lemma run_app (es1 : list event) :
  forall (es2 : list event) (s : session),
  run (es1 ++ es2) s
    = match run es1 s with
      | Some s1 => run es2 s1
      | None => None
      end.
Proof.
  induction es1 as [|e es1 IH]; intros es2 s; [reflexivity|].
  cbn [app run]. destruct (main e s); [apply IH|reflexivity].
Qed.

Lemma reachable_step (e : event) (s s1 : session) :
  reachable s -> main e s = Some s1 -> reachable s1.
Proof.
  intros [es Hrun] Hmain. exists (es ++ [e]).
  rewrite run_app, Hrun. cbn. now rewrite Hmain.
Qed.

(** The effect of the record of a call on a balance is the effect of the
    call. *)
Lemma effect_of_record (accounts : list account) (aid : uuid) (b : float)
    (f : tx_form) (id business_id : uuid) (now : Z) (account_id : uuid) :
  selected_id accounts (f_account_name f) = Some account_id ->
  spec_signed_effect aid b
    (tx_record id business_id now (form_record accounts f account_id))
  = call_effect accounts aid b f.
Proof.
  intro Hsel. unfold spec_signed_effect, call_effect, tx_record, form_record.
  cbn [t_type t_amount t_account_id t_from_account_id t_to_account_id
       d_type d_amount d_account_id d_from_account_id d_to_account_id].
  rewrite Hsel.
  destruct (String.eqb (f_tx_type f) "Inflow"); [reflexivity|].
  destruct (String.eqb (f_tx_type f) "Outflow"); [reflexivity|].
  destruct (String.eqb (f_tx_type f) "Transfer"); [|reflexivity].
  now destruct (selected_id accounts (f_to_account_name f)).
Qed.

Lemma effects_of_records (accounts : list account) (business_id aid : uuid)
    (calls : list (tx_form * Z)) (recs : list transaction) :
  Forall2 (stored_as accounts business_id) calls recs ->
  forall b : float,
  fold_left (spec_signed_effect aid) recs b
    = fold_left (call_effect accounts aid) (map fst calls) b.
Proof.
  induction 1 as [|c t calls recs (account_id & Hsel & Ht) _ IH]; intro b;
    [reflexivity|].
  cbn [map fold_left]. rewrite Ht, (effect_of_record _ _ _ _ _ _ _ _ Hsel).
  apply IH.
Qed.

(** Saving offered forms one after the other: each is saved, the accounts
    stay, and the ledger gains the records of the calls, in call order. *)
Lemma save_calls_run (calls : list (tx_form * Z)) :
  forall (s : session) (business_id : uuid) (b : business),
  reachable s ->
  In (business_id, b) (db_businesses (w_db (store s))) ->
  Forall (fun c => tx_form_offered
                     (get_accounts (w_db (store s)) business_id) (fst c)
                   = true) calls ->
  exists s' recs,
    run (save_events calls) s = Some s'
    /\ reachable s'
    /\ db_businesses (w_db (store s')) = db_businesses (w_db (store s))
    /\ db_accounts (w_db (store s')) = db_accounts (w_db (store s))
    /\ db_transactions (w_db (store s'))
       = db_transactions (w_db (store s)) ++ recs
    /\ Forall2 (stored_as (get_accounts (w_db (store s)) business_id)
                          business_id) calls recs.
Proof.
  induction calls as [|[f now] calls IH]; intros s business_id b Hr Hin Hoff.
  - exists s, []. rewrite app_nil_r. repeat split; auto.
  - inversion Hoff as [|? ? Hf Hrest]; subst. cbn [fst] in Hf.
    destruct (save_form_exact s business_id b f now Hr Hin Hf)
      as (aid & Hsel & Hmain & _).
    set (s1 := with_store s
                 (exec (add_transaction business_id now
                          (form_record
                             (get_accounts (w_db (store s)) business_id)
                             f aid)) (store s))) in *.
    assert (Hacc1 : db_accounts (w_db (store s1))
                    = db_accounts (w_db (store s)))
      by (unfold s1; cbn [with_store store];
          now rewrite exec_add_transaction).
    assert (Hbus1 : db_businesses (w_db (store s1))
                    = db_businesses (w_db (store s)))
      by (unfold s1; cbn [with_store store];
          now rewrite exec_add_transaction).
    assert (Hget1 : get_accounts (w_db (store s1)) business_id
                    = get_accounts (w_db (store s)) business_id)
      by (unfold get_accounts; now rewrite Hacc1).
    destruct (IH s1 business_id b)
      as (s' & recs & Hrun & Hr' & Hb & Ha & Ht & H2).
    + now apply reachable_step with (SaveTransaction f now) s.
    + now rewrite Hbus1.
    + now rewrite Hget1.
    + exists s'. eexists (_ :: recs). split.
      { cbn [save_events map run fst snd]. rewrite Hmain. exact Hrun. }
      split; [assumption|]. split; [congruence|]. split; [congruence|].
      split.
      { rewrite Ht. unfold s1. cbn [with_store store].
        rewrite exec_add_transaction. cbn [w_db db_transactions].
        rewrite <- app_assoc. reflexivity. }
      rewrite Hget1 in H2. constructor; [|assumption].
      exists aid. split; [assumption|]. reflexivity.
Qed.

(** C1.  Any sequence of valid recordTransaction calls, that is of forms the
    page offers, on a session with a business: every call is saved, the
    ledger of the business gains one record per call, in call order and
    after the records it held, and the balance the dashboard then computes
    for each account of the business is the balance it computed before the
    calls moved by the signed effects of the calls in that order (an Inflow
    adds its amount to its account, an Outflow subtracts it, a Transfer
    subtracts it from the from-account and adds it to the to-account).  On a
    ledger that was empty, the balance before the calls is the opening
    balance of the account. *)
Theorem recorded_calls_give_balances (s : session) (business_id : uuid)
    (b : business) (calls : list (tx_form * Z)) :
  reachable s ->
  In (business_id, b) (db_businesses (w_db (store s))) ->
  Forall (fun c => tx_form_offered
                     (get_accounts (w_db (store s)) business_id) (fst c)
                   = true) calls ->
  let accounts := get_accounts (w_db (store s)) business_id in
  let before := get_transactions (w_db (store s)) business_id in
  exists s' recs d0 d,
    run (save_events calls) s = Some s'
    /\ get_accounts (w_db (store s')) business_id = accounts
    /\ get_transactions (w_db (store s')) business_id = before ++ recs
    /\ Forall2 (stored_as accounts business_id) calls recs
    /\ calc_balances accounts before = Ok d0
    /\ calc_balances (get_accounts (w_db (store s')) business_id)
                     (get_transactions (w_db (store s')) business_id)
       = Ok d
    /\ forall acc, In acc accounts ->
         exists b0,
           dict_get d0 (a_id acc) = Some b0
           /\ dict_get d (a_id acc)
              = Some (fold_left (call_effect accounts (a_id acc))
                                (map fst calls) b0)
           /\ (before = [] -> b0 = a_initial_balance acc).
Proof.
  intros Hr Hin Hoff. cbv zeta.
  destruct (save_calls_run calls s business_id b Hr Hin Hoff)
    as (s' & recs & Hrun & Hr' & Hbus & Hacc & Htx & H2).
  assert (Hin' : In (business_id, b) (db_businesses (w_db (store s'))))
    by now rewrite Hbus.
  destruct (dashboard_business s business_id b Hr Hin)
    as (_ & _ & Hga & Hgt & _).
  destruct (dashboard_business s' business_id b Hr' Hin')
    as (_ & _ & Hga' & Hgt' & _).
  pose proof (reachable_ok s Hr) as Hok.
  pose proof (reachable_ok s' Hr') as Hok'.
  destruct (calc_balances_ok _ _ (get_accounts_nodup _ business_id Hok)
              (get_transactions_refs _ business_id Hok))
    as (d0 & Hd0 & _ & Hv0).
  destruct (calc_balances_ok _ _ (get_accounts_nodup _ business_id Hok')
              (get_transactions_refs _ business_id Hok'))
    as (d & Hd & _ & Hv).
  assert (Hsame : get_accounts (w_db (store s')) business_id
                  = get_accounts (w_db (store s)) business_id)
    by congruence.
  assert (Hled : get_transactions (w_db (store s')) business_id
                 = get_transactions (w_db (store s)) business_id ++ recs)
    by congruence.
  exists s', recs, d0, d. repeat split; try assumption.
  intros acc Hacc_in. exists (spec_balance acc
                         (get_transactions (w_db (store s)) business_id)).
  split; [now apply Hv0|]. split.
  - rewrite <- Hsame in Hacc_in. rewrite (Hv acc Hacc_in), Hled.
    unfold spec_balance. rewrite fold_left_app. f_equal.
    now apply effects_of_records with business_id.
  - now intros ->.
Qed.

Lemma recorded_calls_give_balances_witness :
  let s := onboarded_session in
  let b := {| b_data := demo_business;
              b_owner_email := "demo@business.ca" |} in
  let calls := scenario_calls in
  let accounts := get_accounts (w_db (store s)) 0 in
  let before := get_transactions (w_db (store s)) 0 in
  reachable s
  /\ In (0, b) (db_businesses (w_db (store s)))
  /\ Forall (fun c => tx_form_offered accounts (fst c) = true) calls
  /\ exists s' recs d0 d,
       run (save_events calls) s = Some s'
       /\ get_accounts (w_db (store s')) 0 = accounts
       /\ get_transactions (w_db (store s')) 0 = before ++ recs
       /\ Forall2 (stored_as accounts 0) calls recs
       /\ calc_balances accounts before = Ok d0
       /\ calc_balances (get_accounts (w_db (store s')) 0)
                        (get_transactions (w_db (store s')) 0)
          = Ok d
       /\ forall acc, In acc accounts ->
            exists b0,
              dict_get d0 (a_id acc) = Some b0
              /\ dict_get d (a_id acc)
                 = Some (fold_left (call_effect accounts (a_id acc))
                                   (map fst calls) b0)
              /\ (before = [] -> b0 = a_initial_balance acc).
Proof.
  cbv zeta.
  assert (Hr : reachable onboarded_session)
    by (exists [ LogIn "demo@business.ca"; LaunchDashboard demo_business ];
        vm_compute; reflexivity).
  assert (Hin : In (0, {| b_data := demo_business;
                          b_owner_email := "demo@business.ca" |})
                   (db_businesses (w_db (store onboarded_session))))
    by (left; reflexivity).
  assert (Hoff : Forall (fun c => tx_form_offered
                                    (get_accounts
                                       (w_db (store onboarded_session)) 0)
                                    (fst c) = true) scenario_calls)
    by (repeat (constructor; [vm_compute; reflexivity|]); constructor).
  split; [exact Hr|]. split; [exact Hin|]. split; [exact Hoff|].
  exact (recorded_calls_give_balances onboarded_session 0 _ scenario_calls
           Hr Hin Hoff).
Defined.

(** ** The KPIs *)

(** C4, as stated: [assets - liabilities == netPosition] would hold for
    every set of accounts and transactions.  Two deposits of 1e308 on the
    Bank account and two payments of 1e308 from the Credit Card, all four
    accepted by the form, leave assets and liabilities at infinity; their
    difference, the net position, is not a number, and [==] on it is
    false. *)
Lemma kpi_identity_counterexample :
  ~ (forall (s : session) (business_id : uuid) (k : kpis),
       reachable s ->
       dashboard_kpis (get_accounts (w_db (store s)) business_id)
                      (get_transactions (w_db (store s)) business_id)
         = Ok k ->
       (k_assets k - k_liabilities k =? k_net_position k)%float = true).
Proof.
  intro Hclaim.
  assert (Hr : reachable overflow_session).
  { exists ([ LogIn "demo@business.ca"; LaunchDashboard demo_business ]
            ++ save_events overflow_calls).
    vm_compute. reflexivity. }
  specialize (Hclaim overflow_session 0
                {| k_balances := [ (1, infinity); (2, neg_infinity) ];
                   k_assets := infinity; k_liabilities := infinity;
                   k_net_position := nan |} Hr).
  assert (Hk : dashboard_kpis
                 (get_accounts (w_db (store overflow_session)) 0)
                 (get_transactions (w_db (store overflow_session)) 0)
               = Ok {| k_balances := [ (1, infinity); (2, neg_infinity) ];
                       k_assets := infinity; k_liabilities := infinity;
                       k_net_position := nan |})
    by (vm_compute; reflexivity).
  specialize (Hclaim Hk). vm_compute in Hclaim. discriminate.
Qed.

(** C4, amended.  For accounts with pairwise distinct identifiers: whenever
    the dashboard computes its KPIs, the balances are those of the balance
    loop, the opening balance of each account moved by the signed effects of
    the transactions; assets is the sum of the balances of the accounts that
    are not credit cards; liabilities is the sum of the absolute balances of
    the credit cards and of the other accounts with a negative balance; the
    net position is the float [assets - liabilities], and
    [assets - liabilities == net_position] is true exactly when the net
    position is a number.  The KPIs are computed whenever the transactions
    refer to the accounts. *)
Theorem kpi_breakdown (accounts : list account)
    (transactions : list transaction) :
  NoDup (map a_id accounts) ->
  (forall k, dashboard_kpis accounts transactions = Ok k ->
     calc_balances accounts transactions = Ok (k_balances k)
     /\ (forall acc, In acc accounts ->
           dict_get (k_balances k) (a_id acc)
             = Some (spec_balance acc transactions))
     /\ k_assets k = ledger_assets accounts transactions
     /\ k_liabilities k = ledger_liabilities accounts transactions
     /\ k_net_position k = (k_assets k - k_liabilities k)%float
     /\ (k_assets k - k_liabilities k =? k_net_position k)%float
        = negb (is_nan (k_net_position k)))
  /\ (Forall (refs_ok (map a_id accounts)) transactions ->
      exists k, dashboard_kpis accounts transactions = Ok k).
Proof.
  intro Hnd.
  assert (Hkpis : forall d, calc_balances accounts transactions = Ok d ->
    (forall acc, In acc accounts ->
       dict_get d (a_id acc) = Some (spec_balance acc transactions))
    /\ dashboard_kpis accounts transactions
       = Ok {| k_balances := d;
               k_assets := ledger_assets accounts transactions;
               k_liabilities := ledger_liabilities accounts transactions;
               k_net_position :=
                 (ledger_assets accounts transactions
                  - ledger_liabilities accounts transactions)%float |}).
  { intros d Hd.
    assert (Hrefs : Forall (refs_ok (map a_id accounts)) transactions).
    { pose proof Hd as Hl. unfold calc_balances in Hl.
      apply balance_loop_refs in Hl.
      rewrite (initial_balances_nodup _ Hnd) in Hl.
      unfold dict_keys in Hl. now rewrite map_map in Hl. }
    destruct (calc_balances_ok accounts transactions Hnd Hrefs)
      as (d' & Hd' & Hk & Hv).
    assert (d' = d) by congruence. subst d'.
    assert (Hbal : forall acc, In acc accounts ->
              balance_of d acc = spec_balance acc transactions).
    { intros acc Hin. unfold balance_of. now rewrite (Hv acc Hin). }
    split; [assumption|].
    unfold dashboard_kpis. rewrite Hd. cbn [rbind].
    rewrite liabilities_loop_spec by (rewrite Hk; apply incl_refl).
    cbn [rbind]. rewrite (calc_assets_spec _ _ Hnd Hk).
    assert (Ha : spec_assets accounts d = ledger_assets accounts transactions).
    { unfold spec_assets, ledger_assets. f_equal. apply map_ext_in.
      intros acc Hin. apply filter_In in Hin. now apply Hbal. }
    assert (Hl : fold_left PrimFloat.add
                   (map (fun a => abs (balance_of d a))
                        (filter (fun a => is_credit_card a
                                          || (balance_of d a <? 0)%float)
                                accounts)) 0%float
                 = ledger_liabilities accounts transactions).
    { unfold ledger_liabilities, py_sum. f_equal.
      rewrite (filter_ext_in
                 (fun a => is_credit_card a || (balance_of d a <? 0)%float)
                 (fun a => is_credit_card a
                           || (spec_balance a transactions <? 0)%float)).
      - apply map_ext_in. intros acc Hin. apply filter_In in Hin.
        now rewrite Hbal.
      - intros acc Hin. now rewrite Hbal. }
    now rewrite Ha, Hl. }
  split.
  - intros k Hk.
    destruct (calc_balances accounts transactions) as [d|] eqn:Hd.
    + destruct (Hkpis d eq_refl) as [Hv Heq]. rewrite Heq in Hk.
      injection Hk as <-. cbn. repeat split; try assumption.
      unfold is_nan. now rewrite negb_involutive.
    + unfold dashboard_kpis in Hk. rewrite Hd in Hk. discriminate.
  - intro Hrefs.
    destruct (calc_balances_ok accounts transactions Hnd Hrefs)
      as (d & Hd & _).
    destruct (Hkpis d Hd) as [_ Heq]. rewrite Heq. eauto.
Qed.

Lemma kpi_breakdown_witness :
  let accounts := get_accounts (w_db (store scenario_session)) 0 in
  let transactions := get_transactions (w_db (store scenario_session)) 0 in
  NoDup (map a_id accounts)
  /\ (forall k, dashboard_kpis accounts transactions = Ok k ->
        calc_balances accounts transactions = Ok (k_balances k)
        /\ (forall acc, In acc accounts ->
              dict_get (k_balances k) (a_id acc)
                = Some (spec_balance acc transactions))
        /\ k_assets k = ledger_assets accounts transactions
        /\ k_liabilities k = ledger_liabilities accounts transactions
        /\ k_net_position k = (k_assets k - k_liabilities k)%float
        /\ (k_assets k - k_liabilities k =? k_net_position k)%float
           = negb (is_nan (k_net_position k)))
  /\ (Forall (refs_ok (map a_id accounts)) transactions ->
      exists k, dashboard_kpis accounts transactions = Ok k).
Proof.
  intros accounts transactions.
  assert (Hnd : NoDup (map a_id accounts)).
  { vm_compute. repeat constructor; simpl; intuition discriminate. }
  split; [exact Hnd|].
  exact (kpi_breakdown accounts transactions Hnd).
Defined.
